(** * eventtools: occurrence expansion, merging and period filtering

    A shallow embedding of [eventtools/models.py].

    Conventions of the embedding.
    - A (naive) [datetime] is the number of microseconds elapsed since
      0001-01-01T00:00:00; the representable ones lie in [0, MAXDT].
      Comparison and subtraction of datetimes are then those of [Z].
    - A [date] is its proleptic Gregorian ordinal ([date.toordinal()]),
      1 being 0001-01-01.
    - A [timedelta] is a number of microseconds.
    - A generator is the list of the items it yields followed by the way it
      ends: normally, or by raising. *)

From Stdlib Require Import ZArith List Bool Lia String Sorted Permutation.
Import ListNotations.
Local Open Scope Z_scope.

(** ** Calendar arithmetic (the [datetime] module) *)

Module Calendar.

Definition date := Z.
Definition datetime := Z.
Definition timedelta := Z.

Definition US_PER_SECOND : Z := 1000000.
Definition US_PER_DAY : Z := 86400 * US_PER_SECOND.

Definition MAXYEAR : Z := 9999.
(** [date.max.toordinal()] *)
Definition MAXORDINAL : Z := 3652059.
(** [datetime.max], 9999-12-31T23:59:59.999999 *)
Definition MAXDT : datetime := MAXORDINAL * US_PER_DAY - 1.

Definition valid_date (d : date) : Prop := 1 <= d <= MAXORDINAL.
Definition valid_datetime (t : datetime) : Prop := 0 <= t <= MAXDT.

Definition is_leap (y : Z) : bool :=
  (y mod 4 =? 0) && (negb (y mod 100 =? 0) || (y mod 400 =? 0)).

Definition days_in_month (y m : Z) : Z :=
  if m =? 2 then (if is_leap y then 29 else 28)
  else if (m =? 4) || (m =? 6) || (m =? 9) || (m =? 11) then 30
  else 31.

Definition days_in_year (y : Z) : Z := if is_leap y then 366 else 365.

Definition days_before_year (y : Z) : Z :=
  let y' := y - 1 in y' * 365 + y' / 4 - y' / 100 + y' / 400.

Definition days_before_month_common (m : Z) : Z :=
  nth (Z.to_nat m) [0; 0; 31; 59; 90; 120; 151; 181; 212; 243; 273; 304; 334] 0.

Definition days_before_month (y m : Z) : Z :=
  days_before_month_common m + (if (2 <? m) && is_leap y then 1 else 0).

(** [date(y, m, d).toordinal()] *)
Definition ymd2ord (y m d : Z) : date :=
  days_before_year y + days_before_month y m + d.

(** [date.fromordinal(n)] as (year, month, day). *)
Definition ord2ymd (n : date) : Z * Z * Z :=
  let n := n - 1 in
  let n400 := n / 146097 in
  let n := n mod 146097 in
  let n100 := n / 36524 in
  let n := n mod 36524 in
  let n4 := n / 1461 in
  let n := n mod 1461 in
  let n1 := n / 365 in
  let n := n mod 365 in
  let year := n400 * 400 + 1 + n100 * 100 + n4 * 4 + n1 in
  if (n1 =? 4) || (n100 =? 4) then (year - 1, 12, 31)
  else
    let leapyear := (n1 =? 3) && (negb (n4 =? 24) || (n100 =? 3)) in
    let month := (n + 50) / 32 in
    let preceding :=
      days_before_month_common month
      + (if (2 <? month) && leapyear then 1 else 0) in
    if n <? preceding then
      let month' := month - 1 in
      let preceding' :=
        preceding
        - (nth (Z.to_nat month') [0; 31; 28; 31; 30; 31; 30; 31; 31; 30; 31; 30; 31] 0
           + (if (month' =? 2) && leapyear then 1 else 0)) in
      (year, month', n - preceding' + 1)
    else (year, month, n - preceding + 1).

(** [datetime(y, m, d, hh, mm, ss)] *)
Definition mk_datetime (y m d hh mm ss : Z) : datetime :=
  (ymd2ord y m d - 1) * US_PER_DAY + ((hh * 60 + mm) * 60 + ss) * US_PER_SECOND.

(** [t.date()] *)
Definition date_of (t : datetime) : date := t / US_PER_DAY + 1.

(** The time of day of [t], in microseconds. *)
Definition time_of (t : datetime) : Z := t mod US_PER_DAY.

(** [t.replace(microsecond=0)] *)
Definition drop_microsecond (t : datetime) : datetime :=
  t - t mod US_PER_SECOND.

(** [datetime.combine(d, time)], the time given in microseconds. *)
Definition combine (d : date) (tod : Z) : datetime :=
  (d - 1) * US_PER_DAY + tod.

End Calendar.
Import Calendar.

(** ** The recurrence engine ([dateutil.rrule])

    The engine is a library the module imports.  It is modelled here for the
    four frequencies of [REPEAT_CHOICES], as [rrule(freq, dtstart=..,
    count=..)] behaves with no other argument: the microseconds of [dtstart]
    are dropped; DAILY and WEEKLY step by one and seven days; MONTHLY keeps
    the day of the month and skips the months that lack it; YEARLY keeps
    month and day and skips the years that lack them; generation stops after
    [count] starts or when the year would exceed [MAXYEAR].  [rrule] gives
    the starts generated; how the generation ends ([rrule_end]) and
    [between] follow the exceptions below. *)

Module Rrule.

Inductive freq : Set := YEARLY | MONTHLY | WEEKLY | DAILY.

(** The integer constants [rrule.YEARLY], ..., [rrule.DAILY]. *)
Definition freq_code (f : freq) : Z :=
  match f with YEARLY => 0 | MONTHLY => 1 | WEEKLY => 2 | DAILY => 3 end.

Fixpoint by_step (step : Z) (count : nat) (t : datetime) : list datetime :=
  match count with
  | O => []
  | S c => if t <=? MAXDT then t :: by_step step c (t + step) else []
  end.

(** [first] is the ordinal of the first day of month [m] of year [y]. *)
Fixpoint by_month (fuel count : nat) (d tod y m first : Z) : list datetime :=
  match fuel, count with
  | O, _ | _, O => []
  | S fuel', S c =>
      if MAXYEAR <? y then []
      else
        let y' := if m =? 12 then y + 1 else y in
        let m' := if m =? 12 then 1 else m + 1 in
        let first' := first + days_in_month y m in
        if d <=? days_in_month y m
        then combine (first + d - 1) tod :: by_month fuel' c d tod y' m' first'
        else by_month fuel' count d tod y' m' first'
  end.

(** [jan1] is the ordinal of the first of January of year [y]. *)
Fixpoint by_year (fuel count : nat) (m d tod y jan1 : Z) : list datetime :=
  match fuel, count with
  | O, _ | _, O => []
  | S fuel', S c =>
      if MAXYEAR <? y then []
      else
        let jan1' := jan1 + days_in_year y in
        if d <=? days_in_month y m
        then combine (jan1 + days_before_month y m + d - 1) tod
               :: by_year fuel' c m d tod (y + 1) jan1'
        else by_year fuel' count m d tod (y + 1) jan1'
  end.

Definition rrule (f : freq) (dtstart : datetime) (count : nat) : list datetime :=
  let t0 := drop_microsecond dtstart in
  let '(y, m, d) := ord2ymd (date_of t0) in
  let tod := time_of t0 in
  match f with
  | DAILY => by_step US_PER_DAY count t0
  | WEEKLY => by_step (7 * US_PER_DAY) count t0
  | MONTHLY =>
      by_month (Z.to_nat ((MAXYEAR - y) * 12 + 13 - m)) count d tod y m
        (date_of t0 - d + 1)
  | YEARLY =>
      by_year (Z.to_nat (MAXYEAR - y + 1)) count m d tod y
        (date_of t0 - days_before_month y m - d + 1)
  end.

End Rrule.
Import Rrule.

(** ** Exceptions and generators *)

Inductive exn : Set :=
| OverflowError
| ValueError
| ValidationError (msg : string).

(** The outcome of a call: a value, or an exception. *)
Inductive py (A : Type) : Type :=
| Return (a : A)
| Raise (e : exn).
Arguments Return {A} a.
Arguments Raise {A} e.

(** A generator, run to its end: the items it yields, then [None] when it
    finishes (StopIteration) or [Some e] when it raises [e]. *)
Definition generator (A : Type) : Type := (list A * option exn)%type.

(** [t + d] and [t - d] on a datetime raise OverflowError outside the
    representable range. *)
Definition datetime_add (t : datetime) (d : timedelta) : py datetime :=
  if (0 <=? t + d) && (t + d <=? MAXDT) then Return (t + d)
  else Raise OverflowError.

Definition datetime_sub (t : datetime) (d : timedelta) : py datetime :=
  datetime_add t (- d).

(** ** The recurrence engine: how a run ends

    After its last start the engine looks for the next one before it tests
    [count].  A WEEKLY rule scans the days of a week that begins in year
    9999 even where they fall in year 10000; when the rule's weekday is a
    Saturday or a Sunday, the day of that weekday in the week of Monday
    9999-12-27 is not a date, and building it raises ValueError.  In every
    other case the run ends normally. *)

(** [d.weekday()], Monday being 0. *)
Definition weekday (d : date) : Z := (d + 6) mod 7.

(** The end of a run of [by_step]: [e] when a start beyond [MAXDT] is looked
    for among the first [count] + 1 starts, a normal end otherwise. *)
Fixpoint by_step_end (step : Z) (count : nat) (t : datetime) (e : option exn)
    : option exn :=
  if MAXDT <? t then e
  else match count with
       | O => None
       | S c => by_step_end step c (t + step) e
       end.

Definition rrule_end (f : freq) (dtstart : datetime) (count : nat) : option exn :=
  match f with
  | WEEKLY =>
      let t0 := drop_microsecond dtstart in
      by_step_end (7 * US_PER_DAY) count t0
        (if 5 <=? weekday (date_of t0) then Some ValueError else None)
  | _ => None
  end.

(** Iterating over [rrule(freq, dtstart=dtstart, count=count)]. *)
Definition rrule_iter (f : freq) (dtstart : datetime) (count : nat)
    : generator datetime :=
  (rrule f dtstart count, rrule_end f dtstart count).

(** The loop of [between(after, before, inc=True)]: it stops at the first
    occurrence after [before], and from the first occurrence at or after
    [after] on it collects every occurrence. *)
Fixpoint between_loop (after before : datetime) (started : bool)
    (occs : list datetime) (ending : option exn) : py (list datetime) :=
  match occs with
  | [] =>
      match ending with
      | Some e => Raise e
      | None => Return []
      end
  | i :: rest =>
      if before <? i then Return []
      else if started || (after <=? i)
      then match between_loop after before true rest ending with
           | Return l => Return (i :: l)
           | Raise e => Raise e
           end
      else between_loop after before false rest ending
  end.

Definition between (after before : datetime) (gen : generator datetime)
    : py (list datetime) :=
  between_loop after before false (fst gen) (snd gen).

(** ** [eventtools/models.py] *)

Definition first_item {A : Type} (gen : generator A) : py (option A) :=
  match gen with
  | (x :: _, _) => Return (Some x)
  | ([], None) => Return None
  | ([], Some e) => Raise e
  end.

(** A date bound as callers pass it: a [date] or a [datetime]. *)
Inductive date_or_datetime : Set :=
| Date (d : date)
| DateTime (t : datetime).

Definition as_datetime (d : date_or_datetime) (end_ : bool) : datetime :=
  match d with
  | Date d =>
      let time_args := if end_ then ((23 * 60 + 59) * 60 + 59) * US_PER_SECOND
                       else 0 in
      combine d time_args
  | DateTime t => t
  end.

(** A stored occurrence: the fields of [BaseOccurrence], its primary key and
    the [occurrence_data] of its class. *)
Record Occurrence (Data : Type) : Type := mkOccurrence {
  pk : Z;
  start : datetime;
  end_ : datetime;
  repeat : option freq;
  repeat_until : option date;
  occurrence_data : Data
}.
Arguments mkOccurrence {Data}.
Arguments pk {Data}.
Arguments start {Data}.
Arguments end_ {Data}.
Arguments repeat {Data}.
Arguments repeat_until {Data}.
Arguments occurrence_data {Data}.

(** A yielded occurrence: (start, end, occurrence data). *)
Definition instance (Data : Type) : Type := (datetime * datetime * Data)%type.

Definition instance_start {Data} (i : instance Data) : datetime := fst (fst i).
Definition instance_end {Data} (i : instance Data) : datetime := snd (fst i).
Definition instance_data {Data} (i : instance Data) : Data := snd i.

Definition REPEAT_MAX : nat := 200.

(** The loop [for occ_start in repeater: yield (occ_start, occ_start + delta,
    data)]; [ending] is the way the iteration over [repeater] ends. *)
Fixpoint yield_occurrences {Data} (delta : timedelta) (data : Data)
    (repeater : list datetime) (ending : option exn)
    : generator (instance Data) :=
  match repeater with
  | [] => ([], ending)
  | occ_start :: rest =>
      match datetime_add occ_start delta with
      | Raise e => ([], Some e)
      | Return occ_end =>
          let (ys, r) := yield_occurrences delta data rest ending in
          ((occ_start, occ_end, data) :: ys, r)
      end
  end.

(** The value of [to_date] after the [repeat_until] adjustment. *)
Definition effective_to_date (repeat_until : option date)
    (to_date : option datetime) : option datetime :=
  match repeat_until with
  | Some u =>
      match to_date with
      | None => Some (as_datetime (Date u) true)
      | Some t =>
          if as_datetime (Date u) true <? t
          then Some (as_datetime (Date u) true) else Some t
      end
  | None => to_date
  end.

(** [BaseOccurrence.all_occurrences] *)
Definition all_occurrences {Data} (self : Occurrence Data)
    (from_date to_date : option date_or_datetime) : generator (instance Data) :=
  let from_date := option_map (fun d => as_datetime d false) from_date in
  let to_date := option_map (fun d => as_datetime d true) to_date in
  match repeat self with
  | None =>
      if (match from_date with None => true | Some f => f <=? start self end)
         && (match to_date with None => true | Some t => start self <=? t end)
      then ([(start self, end_ self, occurrence_data self)], None)
      else ([], None)
  | Some f =>
      let delta := end_ self - start self in
      let repeater := rrule_iter f (start self) REPEAT_MAX in
      let to_date := effective_to_date (repeat_until self) to_date in
      match from_date, to_date with
      | None, None =>
          yield_occurrences delta (occurrence_data self) (fst repeater)
            (snd repeater)
      | _, _ =>
          match
            match from_date with
            | Some fd =>
                match datetime_sub fd delta with
                | Return fd' => Return (Some fd')
                | Raise e => Raise e
                end
            | None => Return None
            end
          with
          | Raise e => ([], Some e)
          | Return from_date =>
              match
                between
                  (match from_date with
                   | Some fd => fd
                   | None => mk_datetime 1 1 1 0 0 0
                   end)
                  (match to_date with
                   | Some td => td
                   | None => mk_datetime 9999 12 31 23 59 0
                   end)
                  repeater
              with
              | Raise e => ([], Some e)
              | Return l => yield_occurrences delta (occurrence_data self) l None
              end
          end
      end
  end.

(** [BaseModel.next_occurrence], for an occurrence; [now] is the reading of
    [datetime.now()]. *)
Definition next_occurrence {Data} (now : datetime) (self : Occurrence Data)
    (from_date to_date : option date_or_datetime) : py (option (instance Data)) :=
  let from_date :=
    match from_date with Some d => d | None => DateTime now end in
  first_item (all_occurrences self (Some from_date) to_date).

(** [BaseOccurrence.clean], on the raw field values: [start] and [end] may
    still be missing when it runs. *)
Definition clean_fields (start end_ : option datetime) (repeat : option freq)
    (repeat_until : option date) : py unit :=
  if match start, end_ with
     | Some s, Some e => e <=? s
     | _, _ => false
     end
  then Raise (ValidationError "End must be after start")
  else if match repeat_until, repeat with
          | Some _, None => true
          | _, _ => false
          end
  then Raise (ValidationError
                "Select a repeat interval, or remove the 'repeat until' date")
  else if match start, repeat_until with
          | Some s, Some u => u <? date_of s
          | _, _ => false
          end
  then Raise (ValidationError
                "'Repeat until' cannot be before the first occurrence")
  else Return tt.

Definition clean {Data} (self : Occurrence Data) : py unit :=
  clean_fields (Some (start self)) (Some (end_ self)) (repeat self)
    (repeat_until self).

(** *** [combine_occurrences] *)

Section Combine.

Context {A : Type}.
(** The first component of an item, [item[0]]. *)
Variable key : A -> Z.

(** A group: the ['next'] item and what is left of the ['generator']. *)
Definition group : Type := (A * generator A)%type.

(** The first loop: one group for every generator that yields an item. *)
Fixpoint init_groups (generators : list (generator A)) : py (list group) :=
  match generators with
  | [] => Return []
  | gen :: rest =>
      match gen with
      | ([], None) => init_groups rest
      | ([], Some e) => Raise e
      | (next_date :: gen', r) =>
          match init_groups rest with
          | Return grouped => Return ((next_date, (gen', r)) :: grouped)
          | Raise e => Raise e
          end
      end
  end.

(** The scan for [next_group]: [best] (at index [best_i]) is replaced by a
    later group only when that one's key is strictly smaller. *)
Fixpoint earliest (best_i : nat) (best : group) (i : nat) (rest : list group) : nat :=
  match rest with
  | [] => best_i
  | g :: rest' =>
      if key (fst g) <? key (fst best)
      then earliest i g (S i) rest'
      else earliest best_i best (S i) rest'
  end.

Fixpoint replace_at (i : nat) (g : group) (l : list group) : list group :=
  match l, i with
  | [], _ => []
  | _ :: t, O => g :: t
  | h :: t, S i' => h :: replace_at i' g t
  end.

Fixpoint remove_at (i : nat) (l : list group) : list group :=
  match l, i with
  | [], _ => []
  | _ :: t, O => t
  | h :: t, S i' => h :: remove_at i' t
  end.

Definition yield_then (x : A) (g : generator A) : generator A :=
  (x :: fst g, snd g).

(** The [while] loop; [fuel] bounds the number of iterations. *)
Fixpoint combine_loop (fuel : nat) (limit : option nat) (count : nat)
    (grouped : list group) : generator A :=
  match fuel with
  | O => ([], None)
  | S fuel' =>
      if match limit with None => true | Some l => (count <? l)%nat end
      then
        match grouped with
        | [] => ([], None)
        | g0 :: rest =>
            let i := earliest 0 g0 1 rest in
            let next_group := nth i grouped g0 in
            match snd next_group with
            | (x :: gen', r) =>
                yield_then (fst next_group)
                  (combine_loop fuel' limit (S count)
                     (replace_at i (x, (gen', r)) grouped))
            | ([], None) =>
                yield_then (fst next_group)
                  (combine_loop fuel' limit (S count) (remove_at i grouped))
            | ([], Some e) => ([fst next_group], Some e)
            end
        end
      else ([], None)
  end.

(** The number of items the groups still hold. *)
Definition pending (grouped : list group) : nat :=
  fold_right (fun g n => (S (List.length (fst (snd g))) + n)%nat) O grouped.

Definition combine_occurrences (generators : list (generator A))
    (limit : option nat) : generator A :=
  match init_groups generators with
  | Raise e => ([], Some e)
  | Return grouped => combine_loop (S (pending grouped)) limit 0 grouped
  end.

End Combine.

(** *** Querysets

    A queryset is the list of its rows, in the order the store returns them.
    [filter] keeps the rows a condition holds of, [exclude] drops them, and
    [distinct] leaves one copy of each row.  The store fixes no order for a
    filtered queryset; here the rows stay in the order of the list. *)

(** [filter_invalid]; [next] is the row's [next_occurrence] method, called
    with the (already normalised) bounds. *)
Fixpoint exclude_pks {R I : Type} (next : R -> py (option I)) (pk_of : R -> Z)
    (approx_qs : list R) : py (list Z) :=
  match approx_qs with
  | [] => Return []
  | obj :: rest =>
      match next obj with
      | Raise e => Raise e
      | Return occ =>
          match exclude_pks next pk_of rest with
          | Raise e => Raise e
          | Return pks =>
              Return (match occ with
                      | None => pk_of obj :: pks
                      | Some _ => pks
                      end)
          end
      end
  end.

Definition pk_in (pks : list Z) (p : Z) : bool := existsb (Z.eqb p) pks.

Definition filter_invalid {R I : Type} (next : R -> py (option I))
    (pk_of : R -> Z) (approx_qs : list R) : py (list R) :=
  match exclude_pks next pk_of approx_qs with
  | Raise e => Raise e
  | Return pks => Return (filter (fun obj => negb (pk_in pks (pk_of obj))) approx_qs)
  end.

(** The condition of the [to_date] filter on one occurrence. *)
Definition starts_by {Data} (to_date : datetime) (o : Occurrence Data) : bool :=
  start o <=? to_date.

(** The condition of the [from_date] filter on one occurrence.  The store
    compares the date field [repeat_until] with the date of [from_date]. *)
Definition may_reach {Data} (from_date : datetime) (o : Occurrence Data) : bool :=
  (from_date <=? end_ o)
  || (match repeat o with Some _ => true | None => false end
      && match repeat_until o with
         | Some u => date_of from_date <=? u
         | None => true
         end).

(** [OccurrenceQuerySet.for_period] *)
Definition occurrence_for_period {Data} (now : datetime)
    (self : list (Occurrence Data))
    (from_date to_date : option date_or_datetime) (exact : bool)
    : py (list (Occurrence Data)) :=
  let filtered_qs := self in
  let to_date := option_map (fun d => as_datetime d true) to_date in
  let filtered_qs :=
    match to_date with
    | Some td => filter (starts_by td) filtered_qs
    | None => filtered_qs
    end in
  match from_date with
  | Some fd =>
      let from_date := as_datetime fd false in
      let filtered_qs := filter (may_reach from_date) filtered_qs in
      if exact
      then filter_invalid
             (fun obj => next_occurrence now obj (Some (DateTime from_date))
                           (option_map DateTime to_date))
             pk filtered_qs
      else Return filtered_qs
  | None => Return filtered_qs
  end.

(** [BaseQuerySet.all_occurrences] on a queryset of occurrences. *)
Definition occurrence_set_all_occurrences {Data} (now : datetime)
    (self : list (Occurrence Data))
    (from_date to_date : option date_or_datetime) (limit : option nat)
    : generator (instance Data) :=
  match occurrence_for_period now self from_date to_date false with
  | Raise e => ([], Some e)
  | Return qs =>
      combine_occurrences instance_start
        (map (fun obj => all_occurrences obj from_date to_date) qs) limit
  end.

(** An event and the occurrences related to it. *)
Record Event (Data : Type) : Type := mkEvent {
  event_pk : Z;
  occurrence_set : list (Occurrence Data)
}.
Arguments mkEvent {Data}.
Arguments event_pk {Data}.
Arguments occurrence_set {Data}.

(** [BaseEvent.all_occurrences] *)
Definition event_all_occurrences {Data} (now : datetime) (self : Event Data)
    (from_date to_date : option date_or_datetime) (limit : option nat)
    : generator (instance Data) :=
  occurrence_set_all_occurrences now (occurrence_set self) from_date to_date limit.

(** [BaseModel.next_occurrence], for an event. *)
Definition event_next_occurrence {Data} (now : datetime) (self : Event Data)
    (from_date to_date : option date_or_datetime) : py (option (instance Data)) :=
  let from_date :=
    match from_date with Some d => d | None => DateTime now end in
  first_item (event_all_occurrences now self (Some from_date) to_date None).

(** [EventQuerySet.for_period]: a condition on [occurrence__...] holds of an
    event when it holds of one of its occurrences. *)
Definition event_for_period {Data} (now : datetime) (self : list (Event Data))
    (from_date to_date : option date_or_datetime) (exact : bool)
    : py (list (Event Data)) :=
  let filtered_qs := self in
  let to_date := option_map (fun d => as_datetime d true) to_date in
  let filtered_qs :=
    match to_date with
    | Some td => filter (fun ev => existsb (starts_by td) (occurrence_set ev)) filtered_qs
    | None => filtered_qs
    end in
  match from_date with
  | Some fd =>
      let from_date := as_datetime fd false in
      let filtered_qs :=
        filter (fun ev => existsb (may_reach from_date) (occurrence_set ev))
          filtered_qs in
      if exact
      then filter_invalid
             (fun obj => event_next_occurrence now obj (Some (DateTime from_date))
                           (option_map DateTime to_date))
             event_pk filtered_qs
      else Return filtered_qs
  | None => Return filtered_qs
  end.

(** [BaseQuerySet.all_occurrences] on a queryset of events: each event's
    own [all_occurrences] is called without a limit. *)
Definition event_set_all_occurrences {Data} (now : datetime)
    (self : list (Event Data))
    (from_date to_date : option date_or_datetime) (limit : option nat)
    : generator (instance Data) :=
  match event_for_period now self from_date to_date false with
  | Raise e => ([], Some e)
  | Return qs =>
      combine_occurrences instance_start
        (map (fun obj => event_all_occurrences now obj from_date to_date None) qs)
        limit
  end.

(** *** [sort_by_next] *)

(** The inner function [sort_key]: the start of the next occurrence, or
    [None]; [next] is the row's [next_occurrence] method called with
    [from_date]. *)
Definition sort_key {R Data : Type} (next : R -> py (option (instance Data)))
    (obj : R) : py (option datetime) :=
  match next obj with
  | Raise e => Raise e
  | Return occ => Return (option_map instance_start occ)
  end.

(** The list comprehension [[e for e in self if sort_key(e)]]. *)
Fixpoint with_key {R : Type} (key : R -> py (option datetime)) (self : list R)
    : py (list R) :=
  match self with
  | [] => Return []
  | e :: rest =>
      match key e with
      | Raise ex => Raise ex
      | Return k =>
          match with_key key rest with
          | Raise ex => Raise ex
          | Return l => Return (match k with Some _ => e :: l | None => l end)
          end
      end
  end.

(** [sorted(l, key=...)] first computes the key of every element. *)
Fixpoint decorate {R : Type} (key : R -> py (option datetime)) (l : list R)
    : py (list (option datetime * R)) :=
  match l with
  | [] => Return []
  | e :: rest =>
      match key e with
      | Raise ex => Raise ex
      | Return k =>
          match decorate key rest with
          | Raise ex => Raise ex
          | Return d => Return ((k, e) :: d)
          end
      end
  end.

(** The order of the keys: a missing key comes before every datetime (the
    rows without a key were dropped by the comprehension, so the sort meets
    none). *)
Definition key_leb (a b : option datetime) : bool :=
  match a, b with
  | None, _ => true
  | Some _, None => false
  | Some x, Some y => x <=? y
  end.

(** [sorted] is a stable sort; it is modelled by insertion, which yields the
    same list as any other stable sort. *)
Fixpoint insert_by_key {R : Type} (x : option datetime * R)
    (l : list (option datetime * R)) : list (option datetime * R) :=
  match l with
  | [] => [x]
  | y :: rest =>
      if key_leb (fst x) (fst y) then x :: y :: rest
      else y :: insert_by_key x rest
  end.

Definition sorted_by_key {R : Type} (l : list (option datetime * R))
    : list (option datetime * R) :=
  fold_right insert_by_key [] l.

(** [BaseQuerySet.sort_by_next] *)
Definition sort_by_next {R Data : Type} (next : R -> py (option (instance Data)))
    (self : list R) : py (list R) :=
  match with_key (sort_key next) self with
  | Raise e => Raise e
  | Return l =>
      match decorate (sort_key next) l with
      | Raise e => Raise e
      | Return d => Return (map snd (sorted_by_key d))
      end
  end.

(** [sort_by_next] on a queryset of occurrences and on one of events; [now]
    is the reading of the clock, the same at every call. *)
Definition occurrence_sort_by_next {Data} (now : datetime)
    (self : list (Occurrence Data)) (from_date : option date_or_datetime)
    : py (list (Occurrence Data)) :=
  sort_by_next (fun obj => next_occurrence now obj from_date None) self.

Definition event_sort_by_next {Data} (now : datetime)
    (self : list (Event Data)) (from_date : option date_or_datetime)
    : py (list (Event Data)) :=
  sort_by_next (fun obj => event_next_occurrence now obj from_date None) self.

(** ** Vocabulary of the statements *)

(** [l] is strictly increasing and starts at [lo] or later. *)
Fixpoint increasing_from (lo : Z) (l : list Z) : Prop :=
  match l with
  | [] => True
  | x :: rest => lo <= x /\ increasing_from (x + 1) rest
  end.

(** Each item of the [i]-th input paired with [i], the position of its input
    in the argument list (counted from [i0]). *)
Fixpoint tag_inputs {A : Type} (i0 : Z) (inputs : list (list A))
    : list (list (Z * A)) :=
  match inputs with
  | [] => []
  | l :: rest => map (pair i0) l :: tag_inputs (i0 + 1) rest
  end.

(** The items of a tagged sequence that come from input [i], in order. *)
Definition from_input {A : Type} (i : Z) (l : list (Z * A)) : list A :=
  map snd (filter (fun p => fst p =? i) l).

(** A generator that yields the items of [l] and finishes. *)
Definition iter_list {A : Type} (l : list A) : generator A := (l, None).

(** The items a group still holds: its ['next'] item, then those its
    generator has yet to yield. *)
Definition items {A : Type} (g : @group A) : list A := fst g :: fst (snd g).

(** Order by key, then by position of the input. *)
Definition lex_le {A : Type} (key src : A -> Z) (a b : A) : Prop :=
  key a < key b \/ (key a = key b /\ src a <= src b).

(** The state of the merge loop on inputs that do not raise, are sorted by
    key and are listed by increasing input position [src]. *)
Definition well_grouped {A : Type} (key src : A -> Z) (grouped : list (@group A))
    : Prop :=
  Forall (fun g => snd (snd g) = None) grouped
  /\ Forall (fun g => StronglySorted (fun a b => key a <= key b) (items g)) grouped
  /\ Forall (fun g => Forall (fun a => src a = src (fst g)) (items g)) grouped
  /\ StronglySorted Z.lt (map (fun g => src (fst g)) grouped).

(** A group whose items are seen through [f]. *)
Definition group_map {A B : Type} (f : B -> A) (g : @group B) : @group A :=
  (f (fst g), (map f (fst (snd g)), snd (snd g))).

(** The bounds of a window in the spec's words: a calendar date used as a
    lower bound stands for 00:00:00 of that day and, used as an upper bound,
    for 23:59:59 of that day; a datetime stands for itself. *)
Definition start_of_day (d : date) : datetime := (d - 1) * 86400 * 1000000.

Definition end_of_day (d : date) : datetime :=
  (d - 1) * 86400 * 1000000 + ((23 * 60 + 59) * 60 + 59) * 1000000.

Definition lower_bound (b : date_or_datetime) : datetime :=
  match b with
  | Date d => start_of_day d
  | DateTime t => t
  end.

Definition upper_bound (b : date_or_datetime) : datetime :=
  match b with
  | Date d => end_of_day d
  | DateTime t => t
  end.

(** * Properties *)

(** ** The recurrence engine *)

Lemma by_step_length step count t :
  (List.length (by_step step count t) <= count)%nat.
Proof.
  revert t; induction count as [|c IH]; intros t; simpl; [lia|].
  destruct (t <=? MAXDT); simpl; [specialize (IH (t + step))|]; lia.
Qed.

Lemma by_month_length fuel : forall count d tod y m first,
  (List.length (by_month fuel count d tod y m first) <= count)%nat.
Proof.
  induction fuel as [|fuel IH]; intros [|c] d tod y m first; simpl; try lia.
  destruct (MAXYEAR <? y); simpl; [lia|].
  destruct (d <=? days_in_month y m); simpl.
  - match goal with |- (S (List.length ?l) <= _)%nat =>
      assert (List.length l <= c)%nat by apply IH end; lia.
  - apply IH.
Qed.

Lemma by_year_length fuel : forall count m d tod y jan1,
  (List.length (by_year fuel count m d tod y jan1) <= count)%nat.
Proof.
  induction fuel as [|fuel IH]; intros [|c] m d tod y jan1; simpl; try lia.
  destruct (MAXYEAR <? y); simpl; [lia|].
  destruct (d <=? days_in_month y m); simpl.
  - match goal with |- (S (List.length ?l) <= _)%nat =>
      assert (List.length l <= c)%nat by apply IH end; lia.
  - apply IH.
Qed.

Lemma rrule_length f dtstart count :
  (List.length (rrule f dtstart count) <= count)%nat.
Proof.
  unfold rrule.
  destruct (ord2ymd (date_of (drop_microsecond dtstart))) as [[y m] d].
  destruct f;
    auto using by_step_length, by_month_length, by_year_length.
Qed.

Lemma filter_none {X} (p : X -> bool) l :
  (forall x, In x l -> p x = false) -> filter p l = [].
Proof.
  induction l as [|x l IH]; simpl; [reflexivity|]. intros H.
  rewrite (H x (or_introl eq_refl)). apply IH. auto.
Qed.

(** On increasing occurrences [between] returns those within the bounds. *)
Lemma between_loop_sorted after before ending : forall occs started l,
  StronglySorted Z.lt occs ->
  (started = true -> Forall (fun i => after <= i) occs) ->
  between_loop after before started occs ending = Return l ->
  l = filter (fun i => (after <=? i) && (i <=? before)) occs.
Proof.
  induction occs as [|i rest IH]; intros started l Hs Hst; simpl.
  - destruct ending; [discriminate|]. now intros [= <-].
  - inversion Hs as [|? ? Hs' Hlt]; subst.
    destruct (before <? i) eqn:Eb;
      [apply Z.ltb_lt in Eb | apply Z.ltb_ge in Eb].
    + intros [= <-]. symmetry.
      replace (i <=? before) with false by (symmetry; apply Z.leb_gt; lia).
      rewrite andb_false_r. apply filter_none.
      rewrite Forall_forall in Hlt. intros x Hx. specialize (Hlt x Hx).
      apply andb_false_iff. right. apply Z.leb_gt. lia.
    + replace (i <=? before) with true by (symmetry; apply Z.leb_le; lia).
      rewrite andb_true_r.
      destruct (started || (after <=? i)) eqn:Es.
      * assert (Ha : after <= i).
        { apply orb_true_iff in Es as [-> | Es]; [|now apply Z.leb_le].
          specialize (Hst eq_refl). now inversion Hst. }
        replace (after <=? i) with true by (symmetry; now apply Z.leb_le).
        destruct (between_loop after before true rest ending) as [l'|] eqn:E;
          [|discriminate].
        intros [= <-]. f_equal. apply (IH true l' Hs'); [|exact E].
        intros _. rewrite Forall_forall in *. intros x Hx.
        specialize (Hlt x Hx). lia.
      * apply orb_false_iff in Es as [-> Es]. rewrite Es.
        apply (IH false l Hs'). discriminate.
Qed.

Lemma between_loop_Raise after before ending e : forall occs started,
  between_loop after before started occs ending = Raise e <->
  ending = Some e /\ Forall (fun i => i <= before) occs.
Proof.
  induction occs as [|i rest IH]; intros started; simpl.
  - destruct ending as [e'|]; split.
    + intros [= <-]. split; [reflexivity | constructor].
    + intros [[= <-] _]. reflexivity.
    + discriminate.
    + intros [[=] _].
  - destruct (before <? i) eqn:Eb;
      [apply Z.ltb_lt in Eb | apply Z.ltb_ge in Eb].
    + split; [discriminate|]. intros [_ H]. inversion H; subst. lia.
    + assert (Hc : ending = Some e /\ Forall (fun i0 => i0 <= before) (i :: rest)
                   <-> ending = Some e /\ Forall (fun i0 => i0 <= before) rest).
      { rewrite Forall_cons_iff. tauto. }
      rewrite Hc. destruct (started || (after <=? i)).
      * rewrite <- (IH true).
        destruct (between_loop after before true rest ending);
          split; congruence.
      * apply IH.
Qed.

Lemma between_sorted after before gen l :
  StronglySorted Z.lt (fst gen) ->
  between after before gen = Return l ->
  l = filter (fun i => (after <=? i) && (i <=? before)) (fst gen).
Proof.
  intros Hs. unfold between. apply between_loop_sorted; [assumption|].
  discriminate.
Qed.

Lemma between_Raise after before gen e :
  between after before gen = Raise e <->
  snd gen = Some e /\ Forall (fun i => i <= before) (fst gen).
Proof. apply between_loop_Raise. Qed.

(** ** The starts the engine generates are increasing *)

Lemma increasing_from_weaken lo lo' l :
  lo' <= lo -> increasing_from lo l -> increasing_from lo' l.
Proof.
  destruct l; simpl; [tauto|]. intros ? [? ?]; split; [lia | assumption].
Qed.

Lemma increasing_from_Forall lo l :
  increasing_from lo l -> Forall (fun x => lo <= x) l.
Proof.
  revert lo; induction l as [|x l IH]; intros lo; simpl; [constructor|].
  intros [H1 H2]. constructor; [assumption|].
  apply IH in H2. eapply Forall_impl; [|exact H2]. simpl; lia.
Qed.

Lemma increasing_from_sorted lo l :
  increasing_from lo l -> StronglySorted Z.lt l.
Proof.
  revert lo; induction l as [|x l IH]; intros lo; simpl; [constructor|].
  intros [H1 H2]. constructor; [eauto|].
  apply increasing_from_Forall in H2.
  eapply Forall_impl; [|exact H2]. simpl; lia.
Qed.

Lemma days_in_month_pos y m : 28 <= days_in_month y m <= 31.
Proof.
  unfold days_in_month.
  destruct (m =? 2); [destruct (is_leap y); lia|].
  destruct ((m =? 4) || (m =? 6) || (m =? 9) || (m =? 11)); lia.
Qed.

Lemma days_in_year_pos y : 365 <= days_in_year y <= 366.
Proof. unfold days_in_year; destruct (is_leap y); lia. Qed.

Lemma days_before_month_step y y' m :
  days_before_month y m - 1 <= days_before_month y' m <= days_before_month y m + 1.
Proof.
  unfold days_before_month.
  destruct ((2 <? m) && is_leap y), ((2 <? m) && is_leap y'); lia.
Qed.

Lemma by_step_increasing step count t :
  0 < step -> increasing_from t (by_step step count t).
Proof.
  intros Hs. revert t; induction count as [|c IH]; intros t; simpl; [trivial|].
  destruct (t <=? MAXDT); simpl; [|trivial].
  split; [lia|]. apply increasing_from_weaken with (t + step); [lia | apply IH].
Qed.

Lemma combine_mono d d' tod : d < d' -> 0 <= tod < US_PER_DAY ->
  combine d tod + 1 <= combine d' tod.
Proof. unfold combine, US_PER_DAY, US_PER_SECOND. nia. Qed.

Lemma by_month_increasing fuel : forall count d tod y m first,
  0 <= tod < US_PER_DAY ->
  increasing_from (combine (first + d - 1) tod)
    (by_month fuel count d tod y m first).
Proof.
  induction fuel as [|fuel IH]; intros [|c] d tod y m first Ht; simpl; trivial.
  destruct (MAXYEAR <? y); simpl; trivial.
  pose proof (days_in_month_pos y m).
  destruct (d <=? days_in_month y m); simpl.
  - split; [lia|].
    eapply increasing_from_weaken; [|apply IH; assumption].
    apply combine_mono; [lia | assumption].
  - eapply increasing_from_weaken; [|apply IH; assumption].
    pose proof (combine_mono (first + d - 1)
                  (first + days_in_month y m + d - 1) tod); lia.
Qed.

Lemma by_year_increasing fuel : forall count m d tod y jan1,
  0 <= tod < US_PER_DAY ->
  increasing_from (combine (jan1 + days_before_month y m + d - 1) tod)
    (by_year fuel count m d tod y jan1).
Proof.
  induction fuel as [|fuel IH]; intros [|c] m d tod y jan1 Ht; simpl; trivial.
  destruct (MAXYEAR <? y); simpl; trivial.
  pose proof (days_in_year_pos y).
  pose proof (days_before_month_step y (y + 1) m).
  destruct (d <=? days_in_month y m); simpl.
  - split; [lia|].
    eapply increasing_from_weaken; [|apply IH; assumption].
    apply combine_mono; [lia | assumption].
  - eapply increasing_from_weaken; [|apply IH; assumption].
    pose proof (combine_mono (jan1 + days_before_month y m + d - 1)
                  (jan1 + days_in_year y + days_before_month (y + 1) m + d - 1)
                  tod); lia.
Qed.

Lemma combine_date_time t : combine (date_of t) (time_of t) = t.
Proof.
  unfold combine, date_of, time_of.
  pose proof (Z.div_mod t US_PER_DAY). unfold US_PER_DAY, US_PER_SECOND in *. lia.
Qed.

Lemma rrule_increasing f dtstart count :
  increasing_from (drop_microsecond dtstart) (rrule f dtstart count).
Proof.
  unfold rrule.
  set (t0 := drop_microsecond dtstart).
  destruct (ord2ymd (date_of t0)) as [[y m] d].
  assert (Ht : 0 <= time_of t0 < US_PER_DAY).
  { unfold time_of. apply Z.mod_pos_bound. reflexivity. }
  destruct f.
  - eapply increasing_from_weaken; [|apply by_year_increasing; assumption].
    replace (date_of t0 - days_before_month y m - d + 1
             + days_before_month y m + d - 1) with (date_of t0) by lia.
    rewrite combine_date_time. lia.
  - eapply increasing_from_weaken; [|apply by_month_increasing; assumption].
    replace (date_of t0 - d + 1 + d - 1) with (date_of t0) by lia.
    rewrite combine_date_time. lia.
  - apply by_step_increasing. reflexivity.
  - apply by_step_increasing. reflexivity.
Qed.

Lemma drop_microsecond_bounds t :
  t - US_PER_SECOND < drop_microsecond t <= t.
Proof.
  unfold drop_microsecond.
  pose proof (Z.mod_pos_bound t US_PER_SECOND eq_refl). lia.
Qed.

Lemma drop_microsecond_nonneg t : 0 <= t -> 0 <= drop_microsecond t.
Proof.
  unfold drop_microsecond. intros H.
  pose proof (Z.mod_le t US_PER_SECOND H eq_refl). lia.
Qed.

Lemma rrule_sorted f dtstart count :
  StronglySorted Z.lt (rrule f dtstart count).
Proof. eapply increasing_from_sorted, rrule_increasing. Qed.

Lemma rrule_nonneg f dtstart count s :
  0 <= dtstart -> In s (rrule f dtstart count) -> 0 <= s.
Proof.
  intros H Hs.
  pose proof (increasing_from_Forall _ _ (rrule_increasing f dtstart count)) as HF.
  rewrite Forall_forall in HF. apply HF in Hs.
  pose proof (drop_microsecond_nonneg dtstart H). lia.
Qed.

(** ** The yield loop *)

Lemma datetime_add_Return t d r :
  datetime_add t d = Return r -> r = t + d /\ valid_datetime r.
Proof.
  unfold datetime_add, valid_datetime.
  destruct ((0 <=? t + d) && (t + d <=? MAXDT)) eqn:E; [|discriminate].
  intros [= <-]. apply andb_true_iff in E. rewrite !Z.leb_le in E. lia.
Qed.

Lemma yield_occurrences_length {Data} delta (data : Data) repeater ending :
  (List.length (fst (yield_occurrences delta data repeater ending))
   <= List.length repeater)%nat.
Proof.
  induction repeater as [|s rest IH]; simpl; [lia|].
  destruct (datetime_add s delta); simpl; [|lia].
  destruct (yield_occurrences delta data rest ending); simpl in *; lia.
Qed.

(** The starts yielded are an initial segment of the starts generated. *)
Lemma yield_occurrences_prefix {Data} delta (data : Data) repeater ending :
  exists rest,
    repeater
    = map instance_start (fst (yield_occurrences delta data repeater ending))
      ++ rest.
Proof.
  induction repeater as [|s l [rest IH]]; simpl; [now exists []|].
  destruct (datetime_add s delta); simpl; [|now exists (s :: l)].
  destruct (yield_occurrences delta data l ending) as [ys r]; simpl in *.
  exists rest. unfold instance_start at 1; simpl. now f_equal.
Qed.

Lemma yield_occurrences_In {Data} delta (data : Data) repeater ending i :
  In i (fst (yield_occurrences delta data repeater ending)) ->
  In (instance_start i) repeater
  /\ instance_end i = instance_start i + delta
  /\ instance_data i = data.
Proof.
  induction repeater as [|s l IH]; simpl; [tauto|].
  destruct (datetime_add s delta) as [e|] eqn:E; simpl; [|tauto].
  destruct (yield_occurrences delta data l ending) as [ys r]; simpl in *.
  apply datetime_add_Return in E as [-> _].
  intros [<- | H]; [now auto | ].
  destruct (IH H) as (? & ? & ?); auto.
Qed.

(** ** Expansion of one occurrence *)

(** C1.  The weekly rule starting 2021-01-01T09:00, ending 10:00 and
    repeating until 2021-01-22, expanded from 2021-01-10 to 2021-01-31,
    yields the instances of 15 January and of 22 January, in that order, and
    nothing else. *)
Theorem weekly_scenario {Data} (p : Z) (data : Data) :
  all_occurrences
    (mkOccurrence p (mk_datetime 2021 1 1 9 0 0) (mk_datetime 2021 1 1 10 0 0)
       (Some WEEKLY) (Some (ymd2ord 2021 1 22)) data)
    (Some (Date (ymd2ord 2021 1 10))) (Some (Date (ymd2ord 2021 1 31)))
  = ([ (mk_datetime 2021 1 15 9 0 0, mk_datetime 2021 1 15 10 0 0, data);
       (mk_datetime 2021 1 22 9 0 0, mk_datetime 2021 1 22 10 0 0, data) ],
     None).
Proof. vm_compute. reflexivity. Qed.

(** The expansion of a repeating occurrence raises before it yields
    anything, or runs the yield loop over a selection of the generated
    starts, all of them within the shifted [from_date] and the upper
    bound. *)
Lemma all_occurrences_repeating_shape {Data} (self : Occurrence Data) f
    from_date to_date :
  repeat self = Some f ->
  (exists e, all_occurrences self from_date to_date = ([], Some e))
  \/ exists l ending p,
       all_occurrences self from_date to_date
       = yield_occurrences (end_ self - start self) (occurrence_data self) l
           ending
       /\ l = filter p (rrule f (start self) REPEAT_MAX)
       /\ forall s, p s = true ->
             (forall d, from_date = Some d ->
                        as_datetime d false - (end_ self - start self) <= s)
             /\ (forall u,
                   effective_to_date (repeat_until self)
                     (option_map (fun d => as_datetime d true) to_date)
                   = Some u ->
                   s <= u).
Proof.
  intros Hf. unfold all_occurrences. rewrite Hf.
  pose proof (rrule_sorted f (start self) REPEAT_MAX) as Hs.
  destruct from_date as [fd|]; cbn [option_map].
  - destruct (datetime_sub (as_datetime fd false) (end_ self - start self))
      as [lo|e] eqn:E; [|left; eauto].
    apply datetime_add_Return in E as [-> _].
    match goal with |- context [between ?a ?b ?g] =>
      destruct (between a b g) as [l|e] eqn:Eb end; [|left; eauto].
    right. apply between_sorted in Eb; [|exact Hs].
    do 3 eexists. split; [reflexivity|]. split; [exact Eb|].
    intros s Hp. apply andb_true_iff in Hp as [H1 H2].
    apply Z.leb_le in H1, H2. split.
    + intros d [= <-]. lia.
    + intros u Hu. rewrite Hu in H2. exact H2.
  - destruct (effective_to_date (repeat_until self)
                (option_map (fun d => as_datetime d true) to_date)) as [u|].
    + match goal with |- context [between ?a ?b ?g] =>
        destruct (between a b g) as [l|e] eqn:Eb end; [|left; eauto].
      right. apply between_sorted in Eb; [|exact Hs].
      do 3 eexists. split; [reflexivity|]. split; [exact Eb|].
      intros s Hp. apply andb_true_iff in Hp as [H1 H2].
      apply Z.leb_le in H2. split; [discriminate|].
      intros u' [= <-]. exact H2.
    + right. exists (rrule f (start self) REPEAT_MAX),
        (rrule_end f (start self) REPEAT_MAX), (fun _ => true).
      split; [reflexivity|]. split.
      * symmetry. apply forallb_filter_id. apply forallb_forall. reflexivity.
      * intros s _. split; discriminate.
Qed.

Lemma all_occurrences_repeating_starts {Data} (self : Occurrence Data) f
    from_date to_date i :
  repeat self = Some f ->
  In i (fst (all_occurrences self from_date to_date)) ->
  In (instance_start i) (rrule f (start self) REPEAT_MAX)
  /\ instance_end i = instance_start i + (end_ self - start self)
  /\ instance_data i = occurrence_data self.
Proof.
  intros Hf.
  destruct (all_occurrences_repeating_shape self f from_date to_date Hf)
    as [[e ->] | (l & ending & p & -> & -> & _)]; [intros []|].
  intros H. apply yield_occurrences_In in H as (H & ? & ?).
  apply filter_In in H as [H _]. auto.
Qed.

Lemma all_occurrences_repeating_length {Data} (self : Occurrence Data) f
    from_date to_date :
  repeat self = Some f ->
  (List.length (fst (all_occurrences self from_date to_date))
   <= List.length (rrule f (start self) REPEAT_MAX))%nat.
Proof.
  intros Hf.
  destruct (all_occurrences_repeating_shape self f from_date to_date Hf)
    as [[e ->] | (l & ending & p & -> & -> & _)]; [simpl; lia|].
  etransitivity; [apply yield_occurrences_length | apply filter_length_le].
Qed.

(** C6.  Whatever the bounds, a repeating rule yields at most 200 instances:
    the engine generates at most [REPEAT_MAX] = 200 starts, and the bounds
    only select among them. *)
Theorem repeat_cap {Data} (self : Occurrence Data) f from_date to_date :
  repeat self = Some f ->
  (List.length (fst (all_occurrences self from_date to_date)) <= 200)%nat
  /\ (List.length (rrule f (start self) REPEAT_MAX) <= 200)%nat
  /\ incl (map instance_start (fst (all_occurrences self from_date to_date)))
       (rrule f (start self) REPEAT_MAX).
Proof.
  intros Hf.
  pose proof (rrule_length f (start self) REPEAT_MAX) as Hr.
  pose proof (all_occurrences_repeating_length self f from_date to_date Hf).
  change REPEAT_MAX with 200%nat in *.
  repeat split; try lia.
  intros s Hs. apply in_map_iff in Hs as (i & <- & Hi).
  now apply (all_occurrences_repeating_starts self f from_date to_date i Hf).
Qed.

Lemma repeat_cap_witness :
  let self := mkOccurrence 1 (mk_datetime 2021 1 1 9 0 0)
                (mk_datetime 2021 1 1 10 0 0) (Some DAILY) None tt in
  repeat self = Some DAILY
  /\ (List.length (fst (all_occurrences self None None)) <= 200)%nat.
Proof.
  intros self. split; [reflexivity|].
  exact (proj1 (repeat_cap self DAILY None None eq_refl)).
Defined.

(** C8.  Every instance an occurrence yields lasts exactly as long as the
    occurrence itself and carries its data. *)
Theorem duration_invariant {Data} (self : Occurrence Data) from_date to_date i :
  In i (fst (all_occurrences self from_date to_date)) ->
  instance_end i - instance_start i = end_ self - start self
  /\ instance_data i = occurrence_data self.
Proof.
  destruct (repeat self) as [f|] eqn:Hf.
  - intros H.
    destruct (all_occurrences_repeating_starts self f from_date to_date i Hf H)
      as (_ & He & Hd).
    split; [lia | assumption].
  - unfold all_occurrences. rewrite Hf.
    match goal with |- context [if ?c then _ else _] => destruct c end;
      simpl; [|tauto].
    intros [<- | []]. unfold instance_end, instance_start, instance_data; simpl.
    split; reflexivity.
Qed.

Lemma duration_invariant_witness :
  instance_end (mk_datetime 2021 1 15 9 0 0, mk_datetime 2021 1 15 10 0 0, tt)
  - instance_start (mk_datetime 2021 1 15 9 0 0, mk_datetime 2021 1 15 10 0 0, tt)
  = mk_datetime 2021 1 1 10 0 0 - mk_datetime 2021 1 1 9 0 0.
Proof.
  apply (duration_invariant
           (mkOccurrence 1 (mk_datetime 2021 1 1 9 0 0)
              (mk_datetime 2021 1 1 10 0 0) (Some WEEKLY)
              (Some (ymd2ord 2021 1 22)) tt)
           (Some (Date (ymd2ord 2021 1 10))) (Some (Date (ymd2ord 2021 1 31)))).
  vm_compute. left. reflexivity.
Defined.

Lemma as_datetime_bounds b :
  as_datetime b false = lower_bound b /\ as_datetime b true = upper_bound b.
Proof.
  destruct b as [d|t]; [|split; reflexivity].
  unfold as_datetime, lower_bound, upper_bound, start_of_day, end_of_day,
    combine, US_PER_DAY, US_PER_SECOND.
  split; lia.
Qed.

(** C7.  An occurrence that does not repeat yields its own (start, end,
    data), once, when its start is not before the lower bound (if a
    [from_date] is given) and not after the upper bound (if a [to_date] is
    given), and nothing otherwise.  The lower bound of a date is 00:00:00 of
    that day and its upper bound 23:59:59 of that day; a datetime bounds as
    it is. *)
Theorem single_occurrence {Data} (self : Occurrence Data) from_date to_date :
  repeat self = None ->
  let in_bounds :=
    (forall b, from_date = Some b -> lower_bound b <= start self)
    /\ (forall b, to_date = Some b -> start self <= upper_bound b) in
  (in_bounds ->
   all_occurrences self from_date to_date
   = ([(start self, end_ self, occurrence_data self)], None))
  /\ (~ in_bounds -> all_occurrences self from_date to_date = ([], None))
  /\ (forall y m d hh mm ss,
         lower_bound (Date (ymd2ord y m d)) = mk_datetime y m d 0 0 0
         /\ upper_bound (Date (ymd2ord y m d)) = mk_datetime y m d 23 59 59
         /\ lower_bound (DateTime (mk_datetime y m d hh mm ss))
            = mk_datetime y m d hh mm ss
         /\ upper_bound (DateTime (mk_datetime y m d hh mm ss))
            = mk_datetime y m d hh mm ss).
Proof.
  intros Hr in_bounds. unfold all_occurrences. rewrite Hr.
  assert (E : (match option_map (fun d => as_datetime d false) from_date with
               | None => true | Some f => f <=? start self end
               && match option_map (fun d => as_datetime d true) to_date with
                  | None => true | Some t => start self <=? t end) = true
              <-> in_bounds).
  { unfold in_bounds. rewrite andb_true_iff.
    destruct from_date as [fd|], to_date as [td|]; cbn [option_map];
      rewrite ?Z.leb_le;
      try rewrite (proj1 (as_datetime_bounds fd));
      try rewrite (proj2 (as_datetime_bounds td)); split.
    all: try (intros [H1 H2]; split; intros b E;
              discriminate E || (injection E as <-; assumption)).
    all: intros [H1 H2]; split; auto. }
  split; [|split].
  - intros H. apply E in H. rewrite H. reflexivity.
  - intros H. destruct (_ && _); [|reflexivity].
    exfalso. apply H. now apply E.
  - intros y m d hh mm ss.
    unfold lower_bound, upper_bound, start_of_day, end_of_day, mk_datetime,
      US_PER_DAY, US_PER_SECOND.
    repeat split; lia.
Qed.

Lemma single_occurrence_witness :
  all_occurrences
    (mkOccurrence 7 (mk_datetime 2021 2 1 8 0 0) (mk_datetime 2021 2 1 9 0 0)
       None None tt)
    (Some (Date (ymd2ord 2021 2 1))) (Some (Date (ymd2ord 2021 2 1)))
  = ([(mk_datetime 2021 2 1 8 0 0, mk_datetime 2021 2 1 9 0 0, tt)], None).
Proof.
  apply (single_occurrence
           (mkOccurrence 7 (mk_datetime 2021 2 1 8 0 0)
              (mk_datetime 2021 2 1 9 0 0) None None tt)
           (Some (Date (ymd2ord 2021 2 1)))
           (Some (Date (ymd2ord 2021 2 1))) eq_refl).
  split; intros b [= <-]; vm_compute; discriminate.
Defined.

(** ** Validation *)

Lemma clean_raises_iff {Data} (self : Occurrence Data) :
  (exists e, clean self = Raise e)
  <-> (end_ self <= start self
       \/ (repeat_until self <> None /\ repeat self = None)
       \/ (exists u, repeat_until self = Some u /\ u < date_of (start self))).
Proof.
  unfold clean, clean_fields.
  destruct (end_ self <=? start self) eqn:E1;
    [apply Z.leb_le in E1 | apply Z.leb_gt in E1].
  { split; eauto. }
  destruct (repeat_until self) as [u|], (repeat self) as [f|]; simpl.
  all: try destruct (u <? date_of (start self)) eqn:E2;
    try apply Z.ltb_lt in E2; try apply Z.ltb_ge in E2.
  all: split;
    [ intros [e He]; try discriminate He; eauto 6
    | intros [H | [[H1 H2] | (u' & H1 & H2)]];
      try lia; try discriminate; try congruence; eauto ].
  all: try (right; left; split; congruence).
  all: injection H1 as <-; lia.
Qed.

(** C9 as the code has it.  Validation raises exactly when the end is not
    after the start, or [repeat_until] is set without [repeat], or
    [repeat_until] is before the date of the start; and for a rule whose end
    is after its start, [repeat_until] without [repeat] raises the error that
    asks for a repeat interval. *)
Theorem clean_spec {Data} (self : Occurrence Data) :
  ((exists e, clean self = Raise e)
   <-> (end_ self <= start self
        \/ (repeat_until self <> None /\ repeat self = None)
        \/ (exists u, repeat_until self = Some u /\ u < date_of (start self))))
  /\ (start self < end_ self ->
      repeat self = None ->
      repeat_until self <> None ->
      clean self
      = Raise (ValidationError
                 "Select a repeat interval, or remove the 'repeat until' date")).
Proof.
  split; [apply clean_raises_iff|].
  intros Hlt Hr Hu. unfold clean, clean_fields. rewrite Hr.
  destruct (end_ self <=? start self) eqn:E; [apply Z.leb_le in E; lia|].
  destruct (repeat_until self); [reflexivity | congruence].
Qed.

Lemma clean_spec_witness :
  clean (mkOccurrence 1 (mk_datetime 2021 3 1 9 0 0) (mk_datetime 2021 3 1 10 0 0)
           None (Some (ymd2ord 2021 3 8)) tt)
  = Raise (ValidationError
             "Select a repeat interval, or remove the 'repeat until' date").
Proof.
  apply (proj2 (clean_spec
                  (mkOccurrence 1 (mk_datetime 2021 3 1 9 0 0)
                     (mk_datetime 2021 3 1 10 0 0) None
                     (Some (ymd2ord 2021 3 8)) tt))).
  - vm_compute. reflexivity.
  - reflexivity.
  - simpl. discriminate.
Defined.

(** C9 as stated fails: when the end is not after the start as well, the
    error raised is the one about the end, not the one about the repeat
    interval. *)
Lemma clean_first_error_wins :
  clean (mkOccurrence 1 (mk_datetime 2021 3 1 10 0 0) (mk_datetime 2021 3 1 9 0 0)
           None (Some (ymd2ord 2021 3 8)) tt)
  = Raise (ValidationError "End must be after start")
  /\ clean (mkOccurrence 1 (mk_datetime 2021 3 1 10 0 0)
              (mk_datetime 2021 3 1 9 0 0) None (Some (ymd2ord 2021 3 8)) tt)
     <> Raise (ValidationError
                 "Select a repeat interval, or remove the 'repeat until' date").
Proof. split; vm_compute; [reflexivity | discriminate]. Qed.

(** ** Period filtering *)

(** C10.  Without a [from_date], [for_period] does not run the exact phase:
    [exact=True] and [exact=False] give the same queryset, for occurrences
    and for events. *)
Theorem for_period_exact_needs_from_date {Data} (now : datetime)
    (occs : list (Occurrence Data)) (events : list (Event Data)) to_date :
  occurrence_for_period now occs None to_date true
  = occurrence_for_period now occs None to_date false
  /\ event_for_period now events None to_date true
     = event_for_period now events None to_date false.
Proof. split; reflexivity. Qed.

(** ** The window of a repeating occurrence *)

Lemma effective_to_date_min repeat_until to_date :
  effective_to_date repeat_until to_date
  = match repeat_until, to_date with
    | Some u, Some t => Some (Z.min t (as_datetime (Date u) true))
    | Some u, None => Some (as_datetime (Date u) true)
    | None, _ => to_date
    end.
Proof.
  unfold effective_to_date. destruct repeat_until as [u|], to_date as [t|]; auto.
  destruct (as_datetime (Date u) true <? t) eqn:E;
    [apply Z.ltb_lt in E | apply Z.ltb_ge in E]; f_equal; lia.
Qed.

Lemma datetime_sub_valid t d :
  valid_datetime (t - d) -> datetime_sub t d = Return (t - d).
Proof.
  unfold datetime_sub, datetime_add, valid_datetime. intros [H1 H2].
  replace (t + - d) with (t - d) by lia.
  apply Z.leb_le in H1, H2. now rewrite H1, H2.
Qed.

Lemma datetime_sub_invalid t d :
  ~ valid_datetime (t - d) -> datetime_sub t d = Raise OverflowError.
Proof.
  unfold datetime_sub, datetime_add, valid_datetime. intros H.
  replace (t + - d) with (t - d) by lia.
  destruct ((0 <=? t - d) && (t - d <=? MAXDT)) eqn:E; [|reflexivity].
  apply andb_true_iff in E. rewrite !Z.leb_le in E. tauto.
Qed.

(** C4 fails on the code.  For the daily occurrence that starts at
    9999-12-31T23:59:30 nothing bounds the expansion from above, and the
    start lies after [from_date] shifted back by the duration; expanded
    without bounds the occurrence yields its instance, but with
    [from_date] = 9999-12-31 it yields nothing: the datetime that stands for
    a missing upper bound, 9999-12-31T23:59, is before that start. *)
Lemma last_minute_not_yielded :
  effective_to_date None None = None
  /\ In (mk_datetime 9999 12 31 23 59 30)
       (rrule DAILY (mk_datetime 9999 12 31 23 59 30) REPEAT_MAX)
  /\ as_datetime (Date (ymd2ord 9999 12 31)) false
     - (mk_datetime 9999 12 31 23 59 40 - mk_datetime 9999 12 31 23 59 30)
     <= mk_datetime 9999 12 31 23 59 30
  /\ all_occurrences
       (mkOccurrence 1 (mk_datetime 9999 12 31 23 59 30)
          (mk_datetime 9999 12 31 23 59 40) (Some DAILY) None tt)
       (Some (Date (ymd2ord 9999 12 31))) None
     = ([], None)
  /\ all_occurrences
       (mkOccurrence 1 (mk_datetime 9999 12 31 23 59 30)
          (mk_datetime 9999 12 31 23 59 40) (Some DAILY) None tt)
       None None
     = ([(mk_datetime 9999 12 31 23 59 30, mk_datetime 9999 12 31 23 59 40, tt)],
        None).
Proof.
  split; [reflexivity|].
  split; [vm_compute; left; reflexivity|].
  split; [vm_compute; discriminate|].
  split; vm_compute; reflexivity.
Qed.

(** ** The next occurrence *)

Lemma datetime_add_valid t d :
  valid_datetime (t + d) -> datetime_add t d = Return (t + d).
Proof.
  unfold datetime_add, valid_datetime. intros [H1 H2].
  apply Z.leb_le in H1, H2. now rewrite H1, H2.
Qed.

Lemma filter_least (p : Z -> bool) l s :
  StronglySorted Z.lt l ->
  In s l -> p s = true ->
  (forall s', In s' l -> p s' = true -> s <= s') ->
  exists rest, filter p l = s :: rest.
Proof.
  induction 1 as [|x l Hs IH Hx]; simpl; [tauto|].
  intros Hin Hp Hmin. rewrite Forall_forall in Hx.
  destruct (p x) eqn:Px.
  - destruct Hin as [-> | Hin]; [eauto|].
    specialize (Hmin x (or_introl eq_refl) Px). apply Hx in Hin. lia.
  - destruct Hin as [-> | Hin]; [congruence|].
    apply IH; auto.
Qed.

Lemma datetime_add_invalid t d :
  ~ valid_datetime (t + d) -> datetime_add t d = Raise OverflowError.
Proof.
  unfold datetime_add, valid_datetime. intros H.
  destruct ((0 <=? t + d) && (t + d <=? MAXDT)) eqn:E; [|reflexivity].
  apply andb_true_iff in E. rewrite !Z.leb_le in E. tauto.
Qed.

(** C3 as the code has it.  [next_occurrence] returns the first instance of
    the expansion from [from_date] (the current moment when absent).  For an
    occurrence that does not repeat this is its own instance when its start
    is within the bounds.  For a repeating one the lower edge is
    [from_date - (end - start)]: when that is not a representable datetime,
    OverflowError is raised; when the engine's run ends in an exception and
    no generated start lies beyond the upper bound, that exception is
    raised; otherwise the result is the instance of the earliest of the 200
    generated starts from the lower edge to the upper bound (so possibly one
    that starts before [from_date]), OverflowError when that instance's end
    is not representable, and none when no generated start lies there.
    Starts after 9999-12-31T23:59 with no upper bound are left aside. *)
Theorem next_occurrence_spec {Data} (now : datetime) (self : Occurrence Data)
    from_date to_date :
  let fd := as_datetime
              (match from_date with Some d => d | None => DateTime now end)
              false in
  let td := option_map (fun d => as_datetime d true) to_date in
  (repeat self = None ->
   next_occurrence now self from_date to_date
   = Return (if (fd <=? start self)
                && match td with None => true | Some t => start self <=? t end
             then Some (start self, end_ self, occurrence_data self)
             else None))
  /\ (forall f, repeat self = Some f ->
      let delta := end_ self - start self in
      let starts := rrule f (start self) REPEAT_MAX in
      let upper := effective_to_date (repeat_until self) td in
      let below_upper s :=
        match upper with
        | Some u => s <= u
        | None => s <= mk_datetime 9999 12 31 23 59 0
        end in
      let qualifies s :=
        In s starts /\ fd - delta <= s
        /\ match upper with Some u => s <= u | None => True end in
      (~ valid_datetime (fd - delta) ->
       next_occurrence now self from_date to_date = Raise OverflowError)
      /\ (valid_datetime (fd - delta) ->
          (forall e,
              rrule_end f (start self) REPEAT_MAX = Some e ->
              (forall s, In s starts -> below_upper s) ->
              next_occurrence now self from_date to_date = Raise e)
          /\ (rrule_end f (start self) REPEAT_MAX = None
              \/ (exists u s, upper = Some u /\ In s starts /\ u < s) ->
              (forall s,
                  qualifies s -> below_upper s ->
                  (forall s', qualifies s' -> s <= s') ->
                  (valid_datetime (s + delta) ->
                   next_occurrence now self from_date to_date
                   = Return (Some (s, s + delta, occurrence_data self)))
                  /\ (~ valid_datetime (s + delta) ->
                      next_occurrence now self from_date to_date
                      = Raise OverflowError))
              /\ ((forall s, ~ qualifies s) ->
                  next_occurrence now self from_date to_date = Return None)))).
Proof.
  intros fd td. split.
  - intros Hr. unfold next_occurrence, all_occurrences. rewrite Hr. simpl.
    fold fd td. destruct (_ && _); reflexivity.
  - intros f Hf delta starts upper below_upper qualifies.
    set (upper_code := match upper with
                       | Some u => u
                       | None => mk_datetime 9999 12 31 23 59 0
                       end).
    assert (E : forall lo,
               datetime_sub fd delta = Return lo ->
               all_occurrences self
                 (Some match from_date with Some d => d | None => DateTime now end)
                 to_date
               = match between lo upper_code (rrule_iter f (start self) REPEAT_MAX) with
                 | Raise e => ([], Some e)
                 | Return l => yield_occurrences delta (occurrence_data self) l None
                 end).
    { intros lo Hlo. unfold all_occurrences. rewrite Hf. cbn [option_map].
      fold fd td delta. rewrite Hlo. reflexivity. }
    split.
    + intros Hv. unfold next_occurrence, all_occurrences. rewrite Hf.
      cbn [option_map]. fold fd td delta.
      rewrite (datetime_sub_invalid _ _ Hv). reflexivity.
    + intros Hv. specialize (E _ (datetime_sub_valid _ _ Hv)).
      unfold next_occurrence. rewrite E. clear E.
      pose proof (rrule_sorted f (start self) REPEAT_MAX) as Hs.
      split.
      * intros e He Hall.
        assert (Hb : between (fd - delta) upper_code
                       (rrule_iter f (start self) REPEAT_MAX) = Raise e).
        { apply between_Raise. split; [exact He|]. apply Forall_forall.
          intros s Hin. specialize (Hall s Hin). unfold below_upper in Hall.
          unfold upper_code. destruct upper; exact Hall. }
        rewrite Hb. reflexivity.
      * intros Hc.
        destruct (between (fd - delta) upper_code
                    (rrule_iter f (start self) REPEAT_MAX)) as [l|e] eqn:Eb.
        2:{ exfalso. apply between_Raise in Eb as [He Hall].
            destruct Hc as [Hc | (u & s & Hu & Hin & Hlt)].
            - simpl in He. congruence.
            - rewrite Forall_forall in Hall. specialize (Hall s Hin).
              unfold upper_code in Hall. rewrite Hu in Hall. lia. }
        apply between_sorted in Eb; [|exact Hs]. subst l.
        cbn [rrule_iter fst]. fold starts.
        assert (Hq : forall s', In s' starts ->
                     (fd - delta <=? s') && (s' <=? upper_code) = true ->
                     qualifies s').
        { intros s' Hin Hp. apply andb_true_iff in Hp as [H1 H2].
          apply Z.leb_le in H1, H2. unfold qualifies, upper_code in *.
          destruct upper; auto. }
        split.
        -- intros s (Hin & Hlo & Hup) Hbelow Hmin.
           destruct (filter_least
                       (fun i => (fd - delta <=? i) && (i <=? upper_code))
                       starts s Hs Hin) as [rest ->].
           { apply andb_true_iff. rewrite !Z.leb_le. split; [exact Hlo|].
             unfold below_upper, upper_code in *. destruct upper; exact Hbelow. }
           { intros s' Hin' Hp. apply Hmin. now apply Hq. }
           cbn [yield_occurrences]. split; intros Hv'.
           ++ rewrite (datetime_add_valid _ _ Hv').
              destruct (yield_occurrences delta (occurrence_data self) rest None).
              reflexivity.
           ++ rewrite (datetime_add_invalid _ _ Hv'). reflexivity.
        -- intros Hnone. rewrite filter_none; [reflexivity|].
           intros s Hin. apply not_true_is_false. intros Hp.
           apply (Hnone s). now apply Hq.
Qed.

Lemma next_occurrence_spec_witness :
  next_occurrence 0
    (mkOccurrence 1 (mk_datetime 2021 1 1 9 0 0) (mk_datetime 2021 1 1 10 0 0)
       (Some WEEKLY) (Some (ymd2ord 2021 1 22)) tt)
    (Some (DateTime (mk_datetime 2021 1 1 9 30 0))) None
  = Return (Some (mk_datetime 2021 1 1 9 0 0,
                  mk_datetime 2021 1 1 9 0 0
                  + (mk_datetime 2021 1 1 10 0 0 - mk_datetime 2021 1 1 9 0 0),
                  tt)).
Proof.
  refine (proj1 (proj1 (proj2 (proj2 (proj2 (next_occurrence_spec 0
            (mkOccurrence 1 (mk_datetime 2021 1 1 9 0 0)
               (mk_datetime 2021 1 1 10 0 0) (Some WEEKLY)
               (Some (ymd2ord 2021 1 22)) tt)
            (Some (DateTime (mk_datetime 2021 1 1 9 30 0))) None)
          WEEKLY eq_refl) _) _) (mk_datetime 2021 1 1 9 0 0) _ _ _) _).
  - vm_compute. split; discriminate.
  - left. vm_compute. reflexivity.
  - split; [vm_compute; tauto | vm_compute; split; discriminate].
  - vm_compute. discriminate.
  - intros s' [Hin _].
    pose proof (increasing_from_Forall _ _
                  (rrule_increasing WEEKLY (mk_datetime 2021 1 1 9 0 0)
                     REPEAT_MAX)) as HF.
    rewrite Forall_forall in HF. exact (HF s' Hin).
  - vm_compute. split; discriminate.
Defined.

(** The run of a weekly Saturday rule that reaches the last week of year
    9999 ends in ValueError, and so does the search for its next
    occurrence. *)
Example next_occurrence_last_week :
  rrule_iter WEEKLY (mk_datetime 9999 12 18 9 0 0) REPEAT_MAX
  = ([mk_datetime 9999 12 18 9 0 0; mk_datetime 9999 12 25 9 0 0],
     Some ValueError)
  /\ next_occurrence 0
       (mkOccurrence 1 (mk_datetime 9999 12 18 9 0 0)
          (mk_datetime 9999 12 18 10 0 0) (Some WEEKLY) None tt)
       (Some (Date (ymd2ord 9999 12 20))) None
     = Raise ValueError.
Proof. split; vm_compute; reflexivity. Qed.

(** C3 as stated fails: asked for the next occurrence from
    2021-01-15T09:30, the weekly rule returns the instance that started at
    09:00 that day, which is before [from_date], and not the one of
    2021-01-22, the earliest that starts at or after it. *)
Lemma next_occurrence_may_start_earlier :
  next_occurrence 0
    (mkOccurrence 1 (mk_datetime 2021 1 1 9 0 0) (mk_datetime 2021 1 1 10 0 0)
       (Some WEEKLY) (Some (ymd2ord 2021 1 22)) tt)
    (Some (DateTime (mk_datetime 2021 1 15 9 30 0))) None
  = Return (Some (mk_datetime 2021 1 15 9 0 0, mk_datetime 2021 1 15 10 0 0, tt))
  /\ mk_datetime 2021 1 15 9 0 0 < mk_datetime 2021 1 15 9 30 0
  /\ In (mk_datetime 2021 1 22 9 0 0)
       (map instance_start
          (fst (all_occurrences
                  (mkOccurrence 1 (mk_datetime 2021 1 1 9 0 0)
                     (mk_datetime 2021 1 1 10 0 0) (Some WEEKLY)
                     (Some (ymd2ord 2021 1 22)) tt)
                  (Some (DateTime (mk_datetime 2021 1 15 9 30 0))) None))).
Proof.
  split; [vm_compute; reflexivity|].
  split; [vm_compute; reflexivity|].
  vm_compute. right; left; reflexivity.
Qed.

Lemma filter_invalid_subset {R I : Type} (next : R -> py (option I)) pk_of qs l :
  filter_invalid next pk_of qs = Return l -> incl l qs.
Proof.
  unfold filter_invalid. destruct (exclude_pks next pk_of qs); [|discriminate].
  intros [= <-]. intros x Hx. apply filter_In in Hx. tauto.
Qed.

(** The exact result, when there is one, is part of the approximate one. *)
Lemma for_period_exact_subset {Data} (now : datetime)
    (qs : list (Occurrence Data)) from_date to_date l :
  occurrence_for_period now qs from_date to_date true = Return l ->
  exists l', occurrence_for_period now qs from_date to_date false = Return l'
             /\ incl l l'.
Proof.
  unfold occurrence_for_period. destruct from_date as [fd|].
  - intros H. eexists; split; [reflexivity|].
    eapply filter_invalid_subset; exact H.
  - intros [= <-]. eexists; split; [reflexivity | apply incl_refl].
Qed.

(** C5 fails on the code.  A valid daily occurrence 23:30-00:30 repeating
    until 2021-01-05 has an instance in the window that starts on 2021-01-06
    (the one from 2021-01-05T23:30 to 2021-01-06T00:30, which the expansion
    yields and [next_occurrence] returns), yet the approximate phase of
    [for_period] discards it, and so does the exact one. *)
Theorem approximate_phase_drops_overlapping_instance (now : datetime) :
  clean (mkOccurrence 1 (mk_datetime 2021 1 1 23 30 0) (mk_datetime 2021 1 2 0 30 0)
           (Some DAILY) (Some (ymd2ord 2021 1 5)) tt)
  = Return tt
  /\ next_occurrence now
       (mkOccurrence 1 (mk_datetime 2021 1 1 23 30 0)
          (mk_datetime 2021 1 2 0 30 0) (Some DAILY) (Some (ymd2ord 2021 1 5)) tt)
       (Some (Date (ymd2ord 2021 1 6))) None
     = Return (Some (mk_datetime 2021 1 5 23 30 0, mk_datetime 2021 1 6 0 30 0, tt))
  /\ occurrence_for_period now
       [mkOccurrence 1 (mk_datetime 2021 1 1 23 30 0)
          (mk_datetime 2021 1 2 0 30 0) (Some DAILY) (Some (ymd2ord 2021 1 5)) tt]
       (Some (Date (ymd2ord 2021 1 6))) None false
     = Return []
  /\ occurrence_for_period now
       [mkOccurrence 1 (mk_datetime 2021 1 1 23 30 0)
          (mk_datetime 2021 1 2 0 30 0) (Some DAILY) (Some (ymd2ord 2021 1 5)) tt]
       (Some (Date (ymd2ord 2021 1 6))) None true
     = Return [].
Proof.
  split; [vm_compute; reflexivity|].
  split; [vm_compute; reflexivity|].
  split; vm_compute; reflexivity.
Qed.


(** ** Merging *)

Section CombineFacts.

Context {A : Type}.
Variable key : A -> Z.

Lemma replace_at_middle (pre post : list (@group A)) g g' :
  replace_at (List.length pre) g' (pre ++ g :: post) = pre ++ g' :: post.
Proof. induction pre as [|h pre IH]; simpl; [reflexivity | now rewrite IH]. Qed.

Lemma remove_at_middle (pre post : list (@group A)) g :
  remove_at (List.length pre) (pre ++ g :: post) = pre ++ post.
Proof. induction pre as [|h pre IH]; simpl; [reflexivity | now rewrite IH]. Qed.

(** What the scan returns: the position of the first group whose key is
    least. *)
Lemma earliest_spec (rest : list (@group A)) : forall best_i best i,
  (earliest key best_i best i rest = best_i
   /\ Forall (fun h => key (fst best) <= key (fst h)) rest)
  \/ (exists pre g post,
        rest = pre ++ g :: post
        /\ earliest key best_i best i rest = (i + List.length pre)%nat
        /\ key (fst g) < key (fst best)
        /\ Forall (fun h => key (fst g) < key (fst h)) pre
        /\ Forall (fun h => key (fst g) <= key (fst h)) post).
Proof.
  induction rest as [|g rest IH]; intros best_i best i; simpl.
  - left. split; [reflexivity | constructor].
  - destruct (key (fst g) <? key (fst best)) eqn:E;
      [apply Z.ltb_lt in E | apply Z.ltb_ge in E].
    + right.
      destruct (IH i g (S i)) as [[Hj HF] | (pre & g' & post & -> & Hj & Hlt & Hpre & Hpost)].
      * exists [], g, rest. simpl. rewrite Hj.
        repeat split; auto; lia.
      * exists (g :: pre), g', post. simpl. rewrite Hj.
        repeat split; auto; try lia; try (constructor; [lia | assumption]).
    + destruct (IH best_i best (S i)) as [[Hj HF] | (pre & g' & post & -> & Hj & Hlt & Hpre & Hpost)].
      * left. split; [assumption|]. constructor; [lia | assumption].
      * right. exists (g :: pre), g', post. simpl. rewrite Hj.
        repeat split; auto; try lia; try (constructor; [lia | assumption]).
Qed.

Lemma next_group_spec (g0 : @group A) rest :
  exists pre g post,
    g0 :: rest = pre ++ g :: post
    /\ earliest key 0 g0 1 rest = List.length pre
    /\ Forall (fun h => key (fst g) < key (fst h)) pre
    /\ Forall (fun h => key (fst g) <= key (fst h)) post.
Proof.
  destruct (earliest_spec rest 0%nat g0 1%nat)
    as [[Hj HF] | (pre & g & post & -> & Hj & Hlt & Hpre & Hpost)].
  - exists [], g0, rest. simpl. repeat split; auto.
  - exists (g0 :: pre), g, post. simpl. repeat split; auto; try lia; try (constructor; [lia | assumption]).
Qed.

Variable src : A -> Z.

Lemma sorted_lt_middle (l1 l2 : list Z) a :
  StronglySorted Z.lt (l1 ++ a :: l2) ->
  StronglySorted Z.lt (l1 ++ l2)
  /\ Forall (fun x => x < a) l1 /\ Forall (fun x => a < x) l2.
Proof.
  induction l1 as [|b l1 IH]; simpl; intros H; inversion H as [|? ? Hs Hf]; subst.
  - repeat split; auto.
  - destruct (IH Hs) as (H1 & H2 & H3).
    rewrite Forall_app in Hf. destruct Hf as [Hf1 Hf2].
    inversion Hf2; subst.
    repeat split; auto.
    constructor; [assumption|]. rewrite Forall_app. split; assumption.
Qed.

Lemma pending_items (G : list (@group A)) :
  pending G = List.length (List.concat (map items G)).
Proof.
  induction G as [|g G IH]; simpl; [reflexivity|].
  rewrite length_app, <- IH. reflexivity.
Qed.

Lemma well_grouped_remove pre g post :
  well_grouped key src (pre ++ g :: post) -> well_grouped key src (pre ++ post).
Proof.
  unfold well_grouped. rewrite !Forall_app, !Forall_cons_iff.
  rewrite !map_app. simpl. intros (H1 & H2 & H3 & H4).
  apply sorted_lt_middle in H4. tauto.
Qed.

Lemma well_grouped_replace pre x x' l r post :
  well_grouped key src (pre ++ (x, (x' :: l, r)) :: post) ->
  well_grouped key src (pre ++ (x', (l, r)) :: post).
Proof.
  unfold well_grouped. rewrite !Forall_app, !Forall_cons_iff.
  rewrite !map_app. unfold items. simpl.
  intros ((H1 & Hr & H1') & (H2 & Hs & H2') & (H3 & Hu & H3') & H4).
  inversion Hs as [|? ? Hs' _]; subst.
  inversion Hu as [|? ? Hx Hu']; subst.
  inversion Hu' as [|? ? Hx' Hu'']; subst.
  repeat split; auto.
  - constructor; [reflexivity|].
    eapply Forall_impl; [|exact Hu'']. simpl. intros; congruence.
  - replace (src x') with (src x) by congruence. assumption.
Qed.

Lemma head_key_least (g : @group A) y :
  StronglySorted (fun a b => key a <= key b) (items g) ->
  In y (items g) -> key (fst g) <= key y.
Proof.
  unfold items. intros Hs [<- | Hy]; [lia|].
  inversion Hs as [|? ? _ Hf]; subst.
  rewrite Forall_forall in Hf. auto.
Qed.

(** The item selected comes first, by key and then by input position, among
    all the items the groups hold. *)
Lemma selected_least pre x l r post :
  well_grouped key src (pre ++ (x, (l, r)) :: post) ->
  Forall (fun h => key x < key (fst h)) pre ->
  Forall (fun h => key x <= key (fst h)) post ->
  Forall (fun y => key x < key y /\ src y < src x) (List.concat (map items pre))
  /\ Forall (fun y => key x <= key y /\ src y = src x) l
  /\ Forall (fun y => key x <= key y /\ src x < src y) (List.concat (map items post)).
Proof.
  unfold well_grouped. rewrite !Forall_app, !Forall_cons_iff, !map_app.
  simpl. intros ((_ & _ & _) & (S1 & Sg & S2) & (U1 & Ug & U2) & Ho) Hpre Hpost.
  apply sorted_lt_middle in Ho as (_ & O1 & O2).
  rewrite Forall_map in O1, O2.
  rewrite Forall_forall in S1, S2, U1, U2, O1, O2, Hpre, Hpost.
  split; [|split]; apply Forall_forall.
  - intros y Hy. apply List.in_concat in Hy as (ys & Hys & Hy).
    apply in_map_iff in Hys as (h & <- & Hh).
    pose proof (head_key_least h y (S1 h Hh) Hy).
    pose proof (Hpre h Hh). pose proof (O1 h Hh).
    pose proof (U1 h Hh) as Hu. rewrite Forall_forall in Hu.
    specialize (Hu y Hy). unfold group, generator in *. lia.
  - intros y Hy.
    pose proof (head_key_least (x, (l, r)) y Sg (or_intror Hy)).
    rewrite Forall_forall in Ug. specialize (Ug y (or_intror Hy)).
    unfold group, generator in *. simpl in *. lia.
  - intros y Hy. apply List.in_concat in Hy as (ys & Hys & Hy).
    apply in_map_iff in Hys as (h & <- & Hh).
    pose proof (head_key_least h y (S2 h Hh) Hy).
    pose proof (Hpost h Hh). pose proof (O2 h Hh).
    pose proof (U2 h Hh) as Hu. rewrite Forall_forall in Hu.
    specialize (Hu y Hy). unfold group, generator in *. simpl in *. lia.
Qed.

(** One turn of the loop, on the groups split around the selected one. *)
Lemma combine_loop_unfold (g0 : @group A) rest :
  exists pre x l r post,
    g0 :: rest = pre ++ (x, (l, r)) :: post
    /\ Forall (fun h => key x < key (fst h)) pre
    /\ Forall (fun h => key x <= key (fst h)) post
    /\ forall fuel limit count,
       combine_loop key (S fuel) limit count (g0 :: rest)
       = if match limit with None => true | Some k => (count <? k)%nat end
         then match l, r with
              | x' :: l', _ =>
                  yield_then x
                    (combine_loop key fuel limit (S count)
                       (pre ++ (x', (l', r)) :: post))
              | [], None =>
                  yield_then x
                    (combine_loop key fuel limit (S count) (pre ++ post))
              | [], Some e => ([x], Some e)
              end
         else ([], None).
Proof.
  destruct (next_group_spec g0 rest)
    as (pre & [x [l r]] & post & EG & Hi & Hpre & Hpost).
  exists pre, x, l, r, post. repeat split; try assumption.
  intros fuel limit count.
  cbn [combine_loop]. rewrite Hi, EG.
  rewrite nth_middle. cbn [fst snd].
  destruct (match limit with None => true | Some k => (count <? k)%nat end);
    [|reflexivity].
  destruct l as [|x' l'], r as [e|];
    rewrite ?replace_at_middle, ?remove_at_middle; reflexivity.
Qed.

Lemma combine_loop_unlimited fuel : forall count G,
  well_grouped key src G -> (pending G < fuel)%nat ->
  snd (combine_loop key fuel None count G) = None
  /\ Permutation (fst (combine_loop key fuel None count G))
       (List.concat (map items G))
  /\ StronglySorted (lex_le key src) (fst (combine_loop key fuel None count G))
  /\ forall i,
       filter (fun a => src a =? i) (fst (combine_loop key fuel None count G))
       = filter (fun a => src a =? i) (List.concat (map items G)).
Proof.
  induction fuel as [|fuel IH]; intros count G Hw Hp; [lia|].
  destruct G as [|g0 rest]; [simpl; repeat split; constructor|].
  destruct (combine_loop_unfold g0 rest)
    as (pre & x & l & r & post & EG & Hpre & Hpost & Eq).
  rewrite Eq. clear Eq. rewrite EG in *. clear EG g0 rest.
  destruct (selected_least pre x l r post Hw Hpre Hpost) as (L1 & L2 & L3).
  assert (Hr : r = None).
  { destruct Hw as (Hq & _). rewrite Forall_app, Forall_cons_iff in Hq.
    apply Hq. }
  subst r. rewrite pending_items in Hp.
  rewrite map_app, concat_app in *. simpl in Hp |- *.
  rewrite !length_app in Hp. simpl in Hp.
  assert (Hlex : forall G', 
             Permutation (fst (combine_loop key fuel None (S count) G'))
               (List.concat (map items pre) ++ l ++ List.concat (map items post)) ->
             Forall (lex_le key src x) (fst (combine_loop key fuel None (S count) G'))).
  { intros G' HP. apply Forall_forall. intros y Hy.
    eapply Permutation_in in Hy; [|exact HP].
    rewrite Forall_forall in L1, L2, L3. unfold lex_le.
    rewrite !in_app_iff in Hy. destruct Hy as [Hy | [Hy | Hy]];
      [apply L1 in Hy | apply L2 in Hy | apply L3 in Hy]; lia. }
  assert (Hnone : forall i, src x = i ->
             filter (fun a => src a =? i) (List.concat (map items pre)) = []).
  { intros i Hi. apply filter_none. intros y Hy.
    rewrite Forall_forall in L1. apply L1 in Hy. apply Z.eqb_neq. lia. }
  destruct l as [|x' l'].
  - apply well_grouped_remove in Hw.
    destruct (IH (S count) (pre ++ post) Hw) as (I1 & I2 & I3 & I4).
    { rewrite pending_items, map_app, concat_app, length_app. 
      rewrite length_app in Hp. simpl in Hp. lia. }
    rewrite map_app, concat_app in I2, I4.
    unfold yield_then; simpl. repeat split.
    + assumption.
    + apply Permutation_cons_app. exact I2.
    + constructor; [assumption|]. apply Hlex. exact I2.
    + intros i. rewrite I4, !filter_app. simpl.
      destruct (src x =? i) eqn:E; [|reflexivity].
      apply Z.eqb_eq in E. pose proof (Hnone i E) as Hn.
      unfold group, generator in *. rewrite Hn. reflexivity.
  - apply well_grouped_replace in Hw.
    destruct (IH (S count) (pre ++ (x', (l', None)) :: post) Hw) as (I1 & I2 & I3 & I4).
    { rewrite pending_items, map_app, concat_app, length_app. simpl.
      rewrite length_app. rewrite length_app in Hp. simpl in Hp. lia. }
    rewrite map_app, concat_app in I2, I4. simpl in I2, I4.
    unfold yield_then; simpl. repeat split.
    + assumption.
    + apply Permutation_cons_app. exact I2.
    + constructor; [assumption|]. apply Hlex. exact I2.
    + intros i. rewrite I4, !filter_app. simpl. rewrite !filter_app.
      destruct (src x =? i) eqn:E; [|reflexivity].
      apply Z.eqb_eq in E. pose proof (Hnone i E) as Hn.
      unfold group, generator in *. rewrite Hn. reflexivity.
Qed.

(** With a limit the loop yields the first [limit] items of what it yields
    without one. *)
Lemma combine_loop_limit fuel : forall k count G,
  Forall (fun g : @group A => snd (snd g) = None) G ->
  combine_loop key fuel (Some k) count G
  = (firstn (k - count) (fst (combine_loop key fuel None count G)), None).
Proof.
  induction fuel as [|fuel IH]; intros k count G Hq.
  - simpl. now rewrite firstn_nil.
  - destruct G as [|g0 rest].
    + simpl. rewrite firstn_nil. now destruct (count <? k)%nat.
    + destruct (combine_loop_unfold g0 rest)
        as (pre & x & l & r & post & EG & _ & _ & Eq).
      rewrite !Eq. clear Eq. rewrite EG in Hq. clear EG g0 rest.
      rewrite Forall_app, Forall_cons_iff in Hq.
      destruct Hq as (Hq1 & Hr & Hq2). simpl in Hr. subst r.
      destruct (count <? k)%nat eqn:E;
        [apply Nat.ltb_lt in E | apply Nat.ltb_ge in E].
      * replace (k - count)%nat with (S (k - S count)) by lia.
        destruct l as [|x' l']; unfold yield_then; rewrite IH; simpl;
          try reflexivity; rewrite Forall_app; try rewrite Forall_cons_iff;
          auto.
      * replace (k - count)%nat with 0%nat by lia. reflexivity.
Qed.

End CombineFacts.

(** *** Merging does not look at the items beyond their keys *)

Section CombineMap.

Context {A B : Type}.
Variable f : B -> A.
Variable key : A -> Z.

Lemma earliest_map rest : forall best_i best i,
  earliest key best_i (group_map f best) i (map (group_map f) rest)
  = earliest (fun b => key (f b)) best_i best i rest.
Proof.
  induction rest as [|g rest IH]; intros best_i best i; simpl; [reflexivity|].
  destruct (key (f (fst g)) <? key (f (fst best))); apply IH.
Qed.

Lemma replace_at_map i g (l : list (@group B)) :
  replace_at i (group_map f g) (map (group_map f) l) = map (group_map f) (replace_at i g l).
Proof.
  revert i; induction l as [|h l IH]; intros [|i]; simpl; try reflexivity.
  now rewrite IH.
Qed.

Lemma remove_at_map i (l : list (@group B)) :
  remove_at i (map (group_map f) l) = map (group_map f) (remove_at i l).
Proof.
  revert i; induction l as [|h l IH]; intros [|i]; simpl; try reflexivity.
  now rewrite IH.
Qed.

Lemma combine_loop_map fuel : forall limit count G,
  combine_loop key fuel limit count (map (group_map f) G)
  = (map f (fst (combine_loop (fun b => key (f b)) fuel limit count G)),
     snd (combine_loop (fun b => key (f b)) fuel limit count G)).
Proof.
  induction fuel as [|fuel IH]; intros limit count G; [reflexivity|].
  destruct G as [|g0 rest].
  - simpl. destruct limit as [k|]; [destruct (count <? k)%nat|]; reflexivity.
  - cbn [combine_loop map].
    destruct (match limit with None => true | Some k => (count <? k)%nat end);
      [|reflexivity].
    change (group_map f g0 :: map (group_map f) rest) with (map (group_map f) (g0 :: rest)).
    rewrite earliest_map, map_nth.
    set (G0 := g0 :: rest).
    destruct (nth (earliest (fun b => key (f b)) 0 g0 1 rest) G0 g0)
      as [x [[|x' l'] [e|]]]; cbn [group_map fst snd map].
    + reflexivity.
    + rewrite remove_at_map, IH. reflexivity.
    + change (f x', (map f l', Some e)) with (group_map f (x', (l', Some e))).
      rewrite replace_at_map, IH. reflexivity.
    + change (f x', (map f l', @None exn)) with (group_map f (x', (l', @None exn))).
      rewrite replace_at_map, IH. reflexivity.
Qed.

Lemma pending_map (G : list (@group B)) : pending (map (group_map f) G) = pending G.
Proof.
  induction G as [|g G IH]; simpl; [reflexivity|].
  now rewrite IH, length_map.
Qed.

End CombineMap.

(** *** Inputs paired with their position *)

Lemma from_input_app {A} i (l1 l2 : list (Z * A)) :
  from_input i (l1 ++ l2) = from_input i l1 ++ from_input i l2.
Proof. unfold from_input. now rewrite filter_app, map_app. Qed.

Lemma from_input_same {A} i (l : list A) : from_input i (map (pair i) l) = l.
Proof.
  unfold from_input. induction l as [|a l IH]; simpl; [reflexivity|].
  rewrite Z.eqb_refl. simpl. now rewrite IH.
Qed.

Lemma from_input_other {A} i j (l : list A) :
  i <> j -> from_input i (map (pair j) l) = [].
Proof.
  intros H. unfold from_input. induction l as [|a l IH]; simpl; [reflexivity|].
  destruct (j =? i) eqn:E; [apply Z.eqb_eq in E; congruence | exact IH].
Qed.

Lemma from_input_before {A} (inputs : list (list A)) : forall i i0,
  i < i0 -> from_input i (List.concat (tag_inputs i0 inputs)) = [].
Proof.
  induction inputs as [|l inputs IH]; intros i i0 H; simpl; [reflexivity|].
  rewrite from_input_app, from_input_other by lia.
  apply IH. lia.
Qed.

Lemma from_input_tag_inputs {A} (inputs : list (list A)) : forall i0 n,
  from_input (i0 + Z.of_nat n) (List.concat (tag_inputs i0 inputs))
  = nth n inputs [].
Proof.
  induction inputs as [|l inputs IH]; intros i0 n; simpl.
  - now destruct n.
  - rewrite from_input_app. destruct n as [|n].
    + rewrite Z.add_0_r, from_input_same, from_input_before by lia.
      apply app_nil_r.
    + rewrite from_input_other by lia.
      replace (i0 + Z.of_nat (S n)) with (i0 + 1 + Z.of_nat n) by lia.
      apply IH.
Qed.

Lemma untag_inputs {A} (inputs : list (list A)) : forall i0,
  map snd (List.concat (tag_inputs i0 inputs)) = List.concat inputs.
Proof.
  induction inputs as [|l inputs IH]; intros i0; simpl; [reflexivity|].
  rewrite map_app, IH, map_map. simpl. now rewrite map_id.
Qed.

Lemma sorted_map {A B} (f : B -> A) (R : A -> A -> Prop) (l : list B) :
  StronglySorted (fun a b => R (f a) (f b)) l <-> StronglySorted R (map f l).
Proof.
  induction l as [|b l IH]; simpl; split; intros H; try constructor;
    inversion H as [|? ? Hs Hf]; subst.
  - now apply IH.
  - now rewrite Forall_map.
  - now apply IH.
  - now rewrite Forall_map in Hf.
Qed.

Lemma sorted_firstn {A} (R : A -> A -> Prop) (l : list A) : forall k,
  StronglySorted R l -> StronglySorted R (firstn k l).
Proof.
  induction l as [|a l IH]; intros [|k] H; simpl; try constructor;
    inversion H as [|? ? Hs Hf]; subst.
  - now apply IH.
  - rewrite Forall_forall in *. intros x Hx. apply Hf.
    rewrite <- (firstn_skipn k l). apply in_or_app. now left.
Qed.

(** The groups the first loop builds from sorted inputs, each paired with
    its position. *)
Lemma init_groups_tagged {A} (key : A -> Z) (inputs : list (list A)) : forall i0,
  Forall (StronglySorted (fun a b => key a <= key b)) inputs ->
  exists G,
    init_groups (map iter_list (tag_inputs i0 inputs)) = Return G
    /\ init_groups (map iter_list inputs) = Return (map (group_map snd) G)
    /\ well_grouped (fun p => key (snd p)) fst G
    /\ Forall (fun g => i0 <= fst (fst g)) G
    /\ List.concat (map items G) = List.concat (tag_inputs i0 inputs).
Proof.
  induction inputs as [|l inputs IH]; intros i0 Hs.
  - exists []. simpl. repeat split; constructor.
  - inversion Hs as [|? ? Hl Hs']; subst.
    destruct (IH (i0 + 1) Hs') as (G & E1 & E2 & Hw & Hge & Hc).
    assert (Hge' : Forall (fun g : @group (Z * A) => i0 <= fst (fst g)) G).
    { eapply Forall_impl; [|exact Hge]. simpl. intros; lia. }
    destruct l as [|a l].
    + exists G. simpl. unfold iter_list in *. simpl.
      split; [exact E1|]. split; [exact E2|]. split; [exact Hw|].
      split; [exact Hge' | exact Hc].
    + exists (((i0, a), (map (pair i0) l, None)) :: G).
      simpl. unfold iter_list in *. simpl. rewrite E1, E2.
      assert (Egm : group_map snd ((i0, a), (map (pair i0) l, @None exn))
                    = (a, (l, None))).
      { unfold group_map. cbn [fst snd]. rewrite map_map. cbn [snd].
        now rewrite map_id. }
      rewrite Egm.
      destruct Hw as (W1 & W2 & W3 & W4).
      split; [reflexivity|]. split; [reflexivity|].
      split; [|split].
      * unfold well_grouped. split; [|split; [|split]].
        -- constructor; [reflexivity | assumption].
        -- constructor; [|assumption]. unfold items. simpl.
           change ((i0, a) :: map (pair i0) l) with (map (pair i0) (a :: l)).
           apply (sorted_map snd (fun x y : A => key x <= key y)).
           rewrite map_map. simpl. rewrite map_id. exact Hl.
        -- constructor; [|assumption]. unfold items. simpl.
           constructor; [reflexivity|]. rewrite Forall_map. simpl.
           apply Forall_forall. reflexivity.
        -- simpl. constructor; [assumption|]. rewrite Forall_map.
           eapply Forall_impl; [|exact Hge]. simpl. intros; lia.
      * constructor; [simpl; lia | assumption].
      * unfold items at 1. simpl. do 2 f_equal. exact Hc.
Qed.

Lemma sorted_impl {A} (R R' : A -> A -> Prop) (l : list A) :
  (forall a b, R a b -> R' a b) -> StronglySorted R l -> StronglySorted R' l.
Proof.
  intros H. induction 1 as [|a l Hs IH Hf]; constructor; [assumption|].
  eapply Forall_impl; [|exact Hf]. auto.
Qed.

Lemma lex_le_key {A} (key src : A -> Z) a b :
  lex_le key src a b -> key a <= key b.
Proof. unfold lex_le. lia. Qed.

(** C2.  Merging inputs that are each sorted by key ends normally and yields
    a sequence sorted by key, of length min(limit, total number of items)
    (the total without a limit), which is the first [limit] items of the
    unlimited merge; the unlimited merge is a permutation of all the items,
    keeps the items of each input in their order (the items coming from the
    [n]-th input, in output order, are exactly that input), and puts an item
    before every later item with an equal key from a later input.  In the
    scenario, B (07:00) listed after A (08:00) is yielded before A. *)
Theorem combine_occurrences_spec :
  (forall (A : Type) (key : A -> Z) (inputs : list (list A)) (limit : option nat),
      Forall (StronglySorted (fun a b => key a <= key b)) inputs ->
      let out := combine_occurrences key (map iter_list inputs) limit in
      let full := combine_occurrences key (map iter_list inputs) None in
      let tagged := combine_occurrences (fun p => key (snd p))
                      (map iter_list (tag_inputs 0 inputs)) None in
      snd out = None
      /\ StronglySorted (fun a b => key a <= key b) (fst out)
      /\ List.length (fst out)
         = match limit with
           | Some k => Nat.min k (List.length (List.concat inputs))
           | None => List.length (List.concat inputs)
           end
      /\ fst out = match limit with
                   | Some k => firstn k (fst full)
                   | None => fst full
                   end
      /\ Permutation (fst full) (List.concat inputs)
      /\ map snd (fst tagged) = fst full
      /\ (forall n, from_input (Z.of_nat n) (fst tagged) = nth n inputs [])
      /\ StronglySorted (lex_le (fun p => key (snd p)) fst) (fst tagged))
  /\ (forall (Data : Type) pA pB endA endB (dA dB : Data),
         combine_occurrences instance_start
           [ all_occurrences
               (mkOccurrence pA (mk_datetime 2021 2 1 8 0 0) endA None None dA)
               None None;
             all_occurrences
               (mkOccurrence pB (mk_datetime 2021 2 1 7 0 0) endB None None dB)
               None None ]
           None
         = ([ (mk_datetime 2021 2 1 7 0 0, endB, dB);
              (mk_datetime 2021 2 1 8 0 0, endA, dA) ], None)).
Proof.
  split; [|reflexivity].
  intros A key inputs limit Hs out full tagged.
  destruct (init_groups_tagged key inputs 0 Hs) as (G & E1 & E2 & Hw & _ & Hc).
  assert (Hp : (pending G < S (pending G))%nat) by lia.
  destruct (combine_loop_unlimited (fun p => key (snd p)) fst (S (pending G))
              0%nat G Hw Hp) as (T1 & T2 & T3 & T4).
  assert (Et : tagged = combine_loop (fun p => key (snd p)) (S (pending G))
                          None 0 G).
  { unfold tagged, combine_occurrences. now rewrite E1. }
  assert (Ef : full = (map snd (fst tagged), snd tagged)).
  { unfold full, combine_occurrences. rewrite E2, pending_map, Et.
    apply combine_loop_map. }
  rewrite <- Et in T1, T2, T3, T4. rewrite Hc in T2, T4.
  assert (Hq : Forall (fun g : @group A => snd (snd g) = None)
                 (map (group_map snd) G)).
  { destruct Hw as (Hq & _). rewrite Forall_map.
    eapply Forall_impl; [|exact Hq]. auto. }
  assert (Eo : out = (match limit with
                      | Some k => firstn k (fst full)
                      | None => fst full
                      end, None)).
  { destruct limit as [k|].
    - unfold out, full, combine_occurrences. rewrite E2.
      rewrite combine_loop_limit by exact Hq. now rewrite Nat.sub_0_r.
    - unfold out. fold full. rewrite Ef, T1. reflexivity. }
  assert (Hfs : StronglySorted (fun a b => key a <= key b) (fst full)).
  { rewrite Ef. cbn [fst].
    apply (proj1 (sorted_map snd (fun a b : A => key a <= key b) (fst tagged))).
    apply (sorted_impl (lex_le (fun p : Z * A => key (snd p)) fst));
      [|exact T3].
    intros p q. apply lex_le_key. }
  assert (Hfp : Permutation (fst full) (List.concat inputs)).
  { rewrite Ef. simpl. rewrite <- (untag_inputs inputs 0).
    apply Permutation_map. exact T2. }
  rewrite Eo. cbn [fst snd].
  split; [reflexivity|].
  split; [destruct limit; [apply sorted_firstn|]; exact Hfs|].
  split.
  { destruct limit as [k|]; [rewrite length_firstn|];
      now rewrite (Permutation_length Hfp). }
  split; [reflexivity|].
  split; [exact Hfp|].
  split; [now rewrite Ef|].
  split; [|exact T3].
  intros n. unfold from_input. rewrite T4.
  apply (from_input_tag_inputs inputs 0 n).
Qed.

Lemma combine_occurrences_spec_witness :
  StronglySorted (fun a b => a <= b)
    (fst (combine_occurrences (fun x : Z => x)
            (map iter_list [[1; 3]; [1; 2]]) (Some 3%nat)))
  /\ List.length
       (fst (combine_occurrences (fun x : Z => x)
               (map iter_list [[1; 3]; [1; 2]]) (Some 3%nat)))
     = Nat.min 3 (List.length (List.concat [[1; 3]; [1; 2]])).
Proof.
  assert (Hs : Forall (StronglySorted (fun a b : Z => a <= b)) [[1; 3]; [1; 2]]).
  { repeat constructor; lia. }
  destruct (proj1 combine_occurrences_spec Z (fun x => x) [[1; 3]; [1; 2]]
              (Some 3%nat) Hs) as (_ & H2 & H3 & _).
  split; [exact H2 | exact H3].
Defined.


(** * Further properties *)

(** ** Normalising bounds *)

Lemma date_of_combine d tod : 0 <= tod < US_PER_DAY -> date_of (combine d tod) = d.
Proof.
  intros H. unfold date_of, combine.
  rewrite Z.div_add_l by (unfold US_PER_DAY, US_PER_SECOND; lia).
  rewrite Z.div_small by assumption. lia.
Qed.

Lemma as_datetime_same_day_aux (d : date) :
  date_of (as_datetime (Date d) false) = d
  /\ date_of (as_datetime (Date d) true) = d.
Proof.
  unfold as_datetime.
  split; apply date_of_combine; unfold US_PER_DAY, US_PER_SECOND; lia.
Qed.

(** X1.  A date is normalised to a datetime on that same day: midnight as a
    lower bound, 23:59:59 as an upper bound (86399 seconds later), both
    representable when the date is; a datetime is returned unchanged. *)
Theorem as_datetime_same_day (d : date) :
  date_of (as_datetime (Date d) false) = d
  /\ date_of (as_datetime (Date d) true) = d
  /\ as_datetime (Date d) true - as_datetime (Date d) false
     = 86399 * US_PER_SECOND
  /\ (valid_date d ->
      valid_datetime (as_datetime (Date d) false)
      /\ valid_datetime (as_datetime (Date d) true))
  /\ (forall t end_, as_datetime (DateTime t) end_ = t).
Proof.
  unfold as_datetime.
  split; [apply date_of_combine; unfold US_PER_DAY, US_PER_SECOND; lia|].
  split; [apply date_of_combine; unfold US_PER_DAY, US_PER_SECOND; lia|].
  split; [unfold combine; lia|].
  split; [|reflexivity].
  unfold valid_date, valid_datetime, combine, MAXDT, MAXORDINAL, US_PER_DAY,
    US_PER_SECOND. lia.
Qed.

Lemma as_datetime_same_day_witness :
  valid_datetime (as_datetime (Date (ymd2ord 2021 1 10)) false)
  /\ valid_datetime (as_datetime (Date (ymd2ord 2021 1 10)) true).
Proof.
  apply (proj1 (proj2 (proj2 (proj2 (as_datetime_same_day (ymd2ord 2021 1 10)))))).
  vm_compute. split; discriminate.
Defined.

(** ** Expansion of one occurrence, continued *)

Lemma all_occurrences_repeating_bounds {Data} (self : Occurrence Data) f
    from_date to_date i :
  repeat self = Some f ->
  In i (fst (all_occurrences self from_date to_date)) ->
  (forall d, from_date = Some d ->
             as_datetime d false - (end_ self - start self) <= instance_start i)
  /\ (forall u,
        effective_to_date (repeat_until self)
          (option_map (fun d => as_datetime d true) to_date) = Some u ->
        instance_start i <= u).
Proof.
  intros Hf.
  destruct (all_occurrences_repeating_shape self f from_date to_date Hf)
    as [[e ->] | (l & ending & p & -> & -> & Hp)]; [intros []|].
  intros H. apply yield_occurrences_In in H as (H & _ & _).
  apply filter_In in H as [_ H]. apply Hp. exact H.
Qed.

(** X2.  Every instance an occurrence (whose end is not before its start)
    yields for a window ends at or after the normalised [from_date] and
    starts at or before the normalised [to_date]; an instance of a repeating
    occurrence also starts on the [repeat_until] day or earlier. *)
Theorem expansion_within_window {Data} (self : Occurrence Data)
    from_date to_date i :
  start self <= end_ self ->
  In i (fst (all_occurrences self from_date to_date)) ->
  (forall d, from_date = Some d -> as_datetime d false <= instance_end i)
  /\ (forall d, to_date = Some d -> instance_start i <= as_datetime d true)
  /\ (forall f u, repeat self = Some f -> repeat_until self = Some u ->
                  date_of (instance_start i) <= u).
Proof.
  intros Hv Hi. destruct (repeat self) as [f|] eqn:Hf.
  - destruct (all_occurrences_repeating_starts self f from_date to_date i Hf Hi)
      as (_ & He & _).
    destruct (all_occurrences_repeating_bounds self f from_date to_date i Hf Hi)
      as (Hlo & Hup).
    rewrite effective_to_date_min in Hup.
    split; [|split].
    + intros d Hd. specialize (Hlo d Hd). lia.
    + intros d ->. simpl in Hup.
      destruct (repeat_until self) as [u|].
      * specialize (Hup _ eq_refl). lia.
      * apply Hup. reflexivity.
    + intros f' u _ Hu. rewrite Hu in Hup.
      assert (H : instance_start i <= as_datetime (Date u) true).
      { destruct (option_map (fun d => as_datetime d true) to_date).
        - specialize (Hup _ eq_refl). lia.
        - apply Hup. reflexivity. }
      destruct (as_datetime_same_day_aux u) as (_ & <-).
      unfold date_of.
      apply Z.add_le_mono_r, Z.div_le_mono; [reflexivity | exact H].
  - revert Hi. unfold all_occurrences. rewrite Hf.
    match goal with |- context [if ?c then _ else _] =>
      destruct c eqn:E end; simpl; [|tauto].
    apply andb_true_iff in E as [E1 E2].
    intros [<- | []]; unfold instance_start, instance_end; simpl.
    split; [|split]; try discriminate.
    + intros d ->. simpl in E1. apply Z.leb_le in E1. lia.
    + intros d ->. simpl in E2. apply Z.leb_le in E2. lia.
Qed.

Lemma expansion_within_window_witness :
  as_datetime (Date (ymd2ord 2021 1 10)) false <= mk_datetime 2021 1 15 10 0 0.
Proof.
  refine (proj1 (expansion_within_window
            (mkOccurrence 1 (mk_datetime 2021 1 1 9 0 0)
               (mk_datetime 2021 1 1 10 0 0) (Some WEEKLY)
               (Some (ymd2ord 2021 1 22)) tt)
            (Some (Date (ymd2ord 2021 1 10))) (Some (Date (ymd2ord 2021 1 31)))
            (mk_datetime 2021 1 15 9 0 0, mk_datetime 2021 1 15 10 0 0, tt)
            _ _) (Date (ymd2ord 2021 1 10)) eq_refl).
  - vm_compute. discriminate.
  - vm_compute. left. reflexivity.
Defined.

Lemma sorted_filter {X} (R : X -> X -> Prop) (p : X -> bool) l :
  StronglySorted R l -> StronglySorted R (filter p l).
Proof.
  induction 1 as [|x l Hs IH Hf]; simpl; [constructor|].
  destruct (p x); [|assumption].
  constructor; [assumption|].
  rewrite Forall_forall in *. intros y Hy. apply Hf.
  apply filter_In in Hy. tauto.
Qed.

Lemma sorted_app_l {X} (R : X -> X -> Prop) l1 l2 :
  StronglySorted R (l1 ++ l2) -> StronglySorted R l1.
Proof.
  induction l1 as [|x l1 IH]; simpl; intros H; [constructor|].
  inversion H as [|? ? Hs Hf]; subst. constructor; [auto|].
  rewrite Forall_app in Hf. tauto.
Qed.

Lemma yield_occurrences_sorted {Data} delta (data : Data) repeater ending :
  StronglySorted Z.lt repeater ->
  StronglySorted Z.lt
    (map instance_start (fst (yield_occurrences delta data repeater ending))).
Proof.
  intros H.
  destruct (yield_occurrences_prefix delta data repeater ending) as [rest E].
  rewrite E in H. eapply sorted_app_l; exact H.
Qed.

Lemma all_occurrences_starts_sorted {Data} (self : Occurrence Data)
    from_date to_date :
  StronglySorted Z.lt
    (map instance_start (fst (all_occurrences self from_date to_date))).
Proof.
  destruct (repeat self) as [f|] eqn:Hf.
  - destruct (all_occurrences_repeating_shape self f from_date to_date Hf)
      as [[e ->] | (l & ending & p & -> & -> & _)]; [constructor|].
    apply yield_occurrences_sorted, sorted_filter, rrule_sorted.
  - unfold all_occurrences. rewrite Hf.
    match goal with |- context [if ?c then _ else _] => destruct c end;
      simpl; repeat constructor.
Qed.

(** X3.  An occurrence yields its instances in strictly increasing order of
    start, whatever the bounds, so that no two of them start together. *)
Theorem expansion_increasing {Data} (self : Occurrence Data) from_date to_date :
  StronglySorted Z.lt
    (map instance_start (fst (all_occurrences self from_date to_date)))
  /\ NoDup (map instance_start (fst (all_occurrences self from_date to_date))).
Proof.
  pose proof (all_occurrences_starts_sorted self from_date to_date) as H.
  split; [exact H|].
  induction H as [|x l Hs IH Hf]; constructor; [|assumption].
  rewrite Forall_forall in Hf. intros Hin. apply Hf in Hin. lia.
Qed.

(** ** Merging, for arbitrary generators *)

Section CombineAny.

Context {A : Type}.
Variable key : A -> Z.

Lemma init_groups_items (generators : list (generator A)) G :
  init_groups generators = Return G ->
  List.concat (map items G) = List.concat (map fst generators).
Proof.
  revert G; induction generators as [|[[|x l] [e|]] gens IH]; intros G; simpl.
  - intros [= <-]. reflexivity.
  - discriminate.
  - apply IH.
  - destruct (init_groups gens) as [G'|]; [|discriminate].
    intros [= <-]. simpl. unfold items at 1. simpl.
    do 2 f_equal. exact (IH G' eq_refl).
  - destruct (init_groups gens) as [G'|]; [|discriminate].
    intros [= <-]. simpl. unfold items at 1. simpl.
    do 2 f_equal. exact (IH G' eq_refl).
Qed.

Lemma concat_items_middle (pre post : list (@group A)) g :
  List.concat (map items (pre ++ g :: post))
  = List.concat (map items pre) ++ items g ++ List.concat (map items post).
Proof. now rewrite map_app, concat_app. Qed.

Lemma concat_items_app (pre post : list (@group A)) :
  List.concat (map items (pre ++ post))
  = List.concat (map items pre) ++ List.concat (map items post).
Proof. now rewrite map_app, concat_app. Qed.

Lemma combine_loop_submultiset fuel : forall limit count (G : list (@group A)),
  exists rest,
    Permutation (fst (combine_loop key fuel limit count G) ++ rest)
      (List.concat (map items G)).
Proof.
  induction fuel as [|fuel IH]; intros limit count G.
  - exists (List.concat (map items G)). reflexivity.
  - destruct G as [|g0 rest0].
    + exists []. simpl.
      destruct (match limit with None => true | Some l => (count <? l)%nat end);
        reflexivity.
    + destruct (combine_loop_unfold key g0 rest0)
        as (pre & x & l & r & post & EG & _ & _ & Eq).
      rewrite Eq, EG. clear Eq EG g0 rest0.
      destruct (match limit with None => true | Some k => (count <? k)%nat end).
      2:{ exists (List.concat (map items (pre ++ (x, (l, r)) :: post))).
          reflexivity. }
      rewrite concat_items_middle. unfold items at 2. cbn [fst snd].
      destruct l as [|x' l']; [destruct r as [e|]|].
      * exists (List.concat (map items pre) ++ List.concat (map items post)).
        simpl. apply Permutation_cons_app. reflexivity.
      * destruct (IH limit (S count) (pre ++ post)) as [rest HP].
        exists rest. unfold yield_then. cbn [fst]. simpl.
        apply Permutation_cons_app. rewrite concat_items_app in HP. exact HP.
      * destruct (IH limit (S count) (pre ++ (x', (l', r)) :: post))
          as [rest HP].
        exists rest. unfold yield_then. cbn [fst]. simpl.
        apply Permutation_cons_app.
        rewrite concat_items_middle in HP. exact HP.
Qed.

Lemma combine_loop_within_limit fuel : forall k count (G : list (@group A)),
  (List.length (fst (combine_loop key fuel (Some k) count G)) <= k - count)%nat.
Proof.
  induction fuel as [|fuel IH]; intros k count G; [simpl; lia|].
  destruct G as [|g0 rest0].
  - simpl. destruct (count <? k)%nat; simpl; lia.
  - destruct (combine_loop_unfold key g0 rest0)
      as (pre & x & l & r & post & _ & _ & _ & Eq).
    rewrite Eq. clear Eq.
    destruct (count <? k)%nat eqn:E; [apply Nat.ltb_lt in E | simpl; lia].
    destruct l as [|x' l']; [destruct r as [e|]|]; unfold yield_then; simpl.
    + lia.
    + specialize (IH k (S count) (pre ++ post)). lia.
    + specialize (IH k (S count) (pre ++ (x', (l', r)) :: post)). lia.
Qed.

(** X4.  Whatever the generators do, the merge yields only items they yield,
    each no more often than they do, and never more than [limit] of them. *)
Theorem combine_occurrences_conservative (generators : list (generator A))
    (limit : option nat) :
  (exists rest,
      Permutation (fst (combine_occurrences key generators limit) ++ rest)
        (List.concat (map fst generators)))
  /\ match limit with
     | Some k =>
         (List.length (fst (combine_occurrences key generators limit)) <= k)%nat
     | None => True
     end.
Proof.
  unfold combine_occurrences.
  destruct (init_groups generators) as [G|e] eqn:E.
  - split.
    + rewrite <- (init_groups_items generators G E).
      apply combine_loop_submultiset.
    + destruct limit as [k|]; [|trivial].
      pose proof (combine_loop_within_limit (S (pending G)) k 0 G). lia.
  - split.
    + exists (List.concat (map fst generators)). reflexivity.
    + destruct limit; simpl; [lia | trivial].
Qed.

Lemma init_groups_quiet (generators : list (generator A)) :
  Forall (fun gen => snd gen = None) generators ->
  exists G, init_groups generators = Return G
            /\ Forall (fun g : @group A => snd (snd g) = None) G.
Proof.
  induction 1 as [|[l r] gens Hr _ [G [E Hq]]]; simpl.
  - exists []. split; [reflexivity | constructor].
  - simpl in Hr. subst r. destruct l as [|x l].
    + exists G. split; assumption.
    + rewrite E. eexists. split; [reflexivity|].
      constructor; [reflexivity | assumption].
Qed.

Lemma combine_loop_all fuel : forall count (G : list (@group A)),
  Forall (fun g => snd (snd g) = None) G -> (pending G < fuel)%nat ->
  snd (combine_loop key fuel None count G) = None
  /\ Permutation (fst (combine_loop key fuel None count G))
       (List.concat (map items G)).
Proof.
  induction fuel as [|fuel IH]; intros count G Hq Hp; [lia|].
  destruct G as [|g0 rest0]; [simpl; split; constructor|].
  destruct (combine_loop_unfold key g0 rest0)
    as (pre & x & l & r & post & EG & _ & _ & Eq).
  rewrite Eq. clear Eq. rewrite EG in *. clear EG g0 rest0.
  rewrite pending_items, concat_items_middle in Hp.
  rewrite !length_app in Hp. unfold items at 2 in Hp. cbn [fst snd] in Hp.
  rewrite Forall_app, Forall_cons_iff in Hq. destruct Hq as (Hq1 & Hr & Hq2).
  simpl in Hr. subst r.
  rewrite concat_items_middle. unfold items at 2. cbn [fst snd].
  destruct l as [|x' l'].
  - destruct (IH (S count) (pre ++ post)) as [I1 I2].
    { rewrite Forall_app. tauto. }
    { rewrite pending_items, concat_items_app, length_app. simpl in Hp. lia. }
    unfold yield_then. cbn [fst snd]. split; [assumption|].
    simpl. apply Permutation_cons_app.
    rewrite concat_items_app in I2. exact I2.
  - destruct (IH (S count) (pre ++ (x', (l', None)) :: post)) as [I1 I2].
    { rewrite Forall_app, Forall_cons_iff. tauto. }
    { rewrite pending_items, concat_items_middle, !length_app.
      unfold items at 2. simpl in Hp |- *. lia. }
    unfold yield_then. cbn [fst snd]. split; [assumption|].
    simpl. apply Permutation_cons_app.
    rewrite concat_items_middle in I2. exact I2.
Qed.

Lemma combine_occurrences_all (generators : list (generator A)) :
  Forall (fun gen => snd gen = None) generators ->
  snd (combine_occurrences key generators None) = None
  /\ Permutation (fst (combine_occurrences key generators None))
       (List.concat (map fst generators)).
Proof.
  intros H. destruct (init_groups_quiet generators H) as (G & E & Hq).
  unfold combine_occurrences. rewrite E.
  rewrite <- (init_groups_items generators G E).
  apply combine_loop_all; [assumption | lia].
Qed.

(** X5.  When no generator raises, the merge without a limit ends normally
    and yields every item of every generator exactly once, whether or not
    the generators are sorted. *)
Theorem combine_occurrences_exhaustive (generators : list (generator A)) :
  Forall (fun gen => snd gen = None) generators ->
  snd (combine_occurrences key generators None) = None
  /\ Permutation (fst (combine_occurrences key generators None))
       (List.concat (map fst generators)).
Proof. apply combine_occurrences_all. Qed.

Lemma combine_loop_single fuel : forall limit count x l r,
  (List.length l < fuel)%nat ->
  combine_loop key fuel limit count [(x, (l, r))]
  = match limit with
    | None => (x :: l, r)
    | Some k =>
        (firstn (k - count) (x :: l),
         if (List.length (x :: l) <=? k - count)%nat then r else None)
    end.
Proof.
  induction fuel as [|fuel IH]; intros limit count x l r Hf; [lia|].
  cbn [combine_loop earliest nth snd fst replace_at remove_at].
  destruct limit as [k|].
  - destruct (count <? k)%nat eqn:E;
      [apply Nat.ltb_lt in E | apply Nat.ltb_ge in E].
    + replace (k - count)%nat with (S (k - S count)) by lia.
      destruct l as [|x' l'].
      * destruct r as [e|]; [simpl; now rewrite firstn_nil|].
        unfold yield_then. rewrite firstn_cons, firstn_nil.
        destruct fuel; simpl; [|destruct (S count <? k)%nat]; reflexivity.
      * simpl in Hf. rewrite IH by lia. unfold yield_then. reflexivity.
    + replace (k - count)%nat with 0%nat by lia. reflexivity.
  - destruct l as [|x' l'].
    + destruct r as [e|]; [reflexivity|].
      unfold yield_then. destruct fuel; reflexivity.
    + simpl in Hf. rewrite IH by lia. reflexivity.
Qed.

(** X6.  Merging a single generator gives that generator back, items and
    ending.  With a limit [k] it gives its first [k] items, and its ending
    only when the generator has no more than [k] items: an exception it
    raises right after its [k]-th item is still raised, a later one is
    not. *)
Theorem combine_single_generator (gen : generator A) (limit : option nat) :
  combine_occurrences key [gen] limit
  = match limit with
    | None => gen
    | Some k =>
        (firstn k (fst gen),
         if (List.length (fst gen) <=? k)%nat then snd gen else None)
    end.
Proof.
  destruct gen as [[|x l] r]; unfold combine_occurrences.
  - destruct r as [e|], limit as [k|]; simpl; try reflexivity.
    + now rewrite firstn_nil.
    + rewrite firstn_nil. now destruct (0 <? k)%nat.
  - cbn [init_groups pending fold_right fst snd].
    rewrite combine_loop_single by lia.
    destruct limit as [k|]; [|reflexivity]. now rewrite Nat.sub_0_r.
Qed.

Lemma init_groups_raises pre e post :
  Forall (fun gen : generator A => fst gen <> [] \/ snd gen = None) pre ->
  init_groups (pre ++ ([], Some e) :: post) = Raise e.
Proof.
  induction 1 as [|[l r] pre Hg _ IH]; simpl; [reflexivity|].
  destruct l as [|x l].
  - destruct Hg as [Hg | Hg]; simpl in Hg; [congruence|]. subst r. exact IH.
  - now rewrite IH.
Qed.

Lemma init_groups_returns (generators : list (generator A)) :
  Forall (fun gen : generator A => fst gen <> [] \/ snd gen = None) generators ->
  exists G, init_groups generators = Return G.
Proof.
  induction 1 as [|[l r] gens Hg _ [G IH]]; simpl; [eauto|].
  destruct l as [|x l].
  - destruct Hg as [Hg | Hg]; simpl in Hg; [congruence|]. subst r. eauto.
  - rewrite IH. eauto.
Qed.

(** X7.  Every generator is asked for its first item before anything is
    yielded, whatever the limit: if one raises there, and none before it in
    the list does, the merge raises that exception without yielding.  When
    none raises there, a limit of 0 yields nothing and ends normally. *)
Theorem combine_first_items (generators : list (generator A)) :
  (forall pre e post limit,
      generators = pre ++ ([], Some e) :: post ->
      Forall (fun gen : generator A => fst gen <> [] \/ snd gen = None) pre ->
      combine_occurrences key generators limit = ([], Some e))
  /\ (Forall (fun gen : generator A => fst gen <> [] \/ snd gen = None)
        generators ->
      combine_occurrences key generators (Some 0%nat) = ([], None)).
Proof.
  split.
  - intros pre e post limit -> H. unfold combine_occurrences.
    now rewrite init_groups_raises.
  - intros H. destruct (init_groups_returns generators H) as [G E].
    unfold combine_occurrences. rewrite E. reflexivity.
Qed.

End CombineAny.

Lemma combine_occurrences_exhaustive_witness :
  Permutation
    (fst (combine_occurrences (fun x : Z => x) [([3; 1], None); ([2], None)] None))
    (List.concat (map fst [([3; 1], @None exn); ([2], None)])).
Proof.
  apply (combine_occurrences_exhaustive (fun x : Z => x)
           [([3; 1], None); ([2], None)]).
  repeat constructor.
Defined.

Lemma combine_first_items_witness :
  combine_occurrences (fun x : Z => x)
    [([1; 2], None); ([], Some OverflowError); ([0], None)] (Some 0%nat)
  = ([], Some OverflowError).
Proof.
  apply (proj1 (combine_first_items (fun x : Z => x)
                  [([1; 2], None); ([], Some OverflowError); ([0], None)])
           [([1; 2], None)] OverflowError [([0], None)] (Some 0%nat) eq_refl).
  repeat constructor. simpl. discriminate.
Defined.

(** ** The exact phase *)

Lemma pk_in_In pks p : pk_in pks p = true <-> In p pks.
Proof.
  unfold pk_in. rewrite existsb_exists. split.
  - intros (q & Hq & E). apply Z.eqb_eq in E. now subst.
  - intros H. exists p. split; [assumption | apply Z.eqb_refl].
Qed.

Lemma exclude_pks_Return {R I : Type} (next : R -> py (option I)) pk_of qs pks :
  exclude_pks next pk_of qs = Return pks ->
  (forall o, In o qs -> exists r, next o = Return r)
  /\ (forall p, In p pks <->
                exists o, In o qs /\ pk_of o = p /\ next o = Return None).
Proof.
  revert pks; induction qs as [|obj qs IH]; intros pks; simpl.
  - intros [= <-]. split; [intros o []|]. intros p; split; [intros []|].
    intros (o & [] & _).
  - destruct (next obj) as [occ|] eqn:En; [|discriminate].
    destruct (exclude_pks next pk_of qs) as [pks'|]; [|discriminate].
    destruct (IH pks' eq_refl) as [IH1 IH2].
    intros [= <-]. split.
    + intros o [<- | Ho]; eauto.
    + intros p. destruct occ as [i|].
      * rewrite IH2. split.
        -- intros (o & Ho & Hp & Hn). eauto.
        -- intros (o & [<- | Ho] & Hp & Hn); [congruence | eauto].
      * simpl. rewrite IH2. split.
        -- intros [<- | (o & Ho & Hp & Hn)]; eauto.
        -- intros (o & [<- | Ho] & Hp & Hn); eauto.
Qed.

Lemma exclude_pks_Raise {R I : Type} (next : R -> py (option I)) pk_of qs e :
  exclude_pks next pk_of qs = Raise e ->
  exists o, In o qs /\ next o = Raise e.
Proof.
  induction qs as [|obj qs IH]; simpl; [discriminate|].
  destruct (next obj) as [occ|e'] eqn:En.
  - destruct (exclude_pks next pk_of qs) as [pks'|e'']; [discriminate|].
    intros [= <-]. destruct (IH eq_refl) as (o & Ho & Hn). eauto.
  - intros [= <-]. eauto.
Qed.

(** X8.  [filter_invalid] keeps a row exactly when no row of the queryset
    with the same primary key (the row itself included) is without a next
    occurrence, and keeps the rows in their order; it raises only an
    exception that some row's [next_occurrence] raises. *)
Theorem filter_invalid_spec {R I : Type} (next : R -> py (option I))
    (pk_of : R -> Z) (approx_qs : list R) :
  match filter_invalid next pk_of approx_qs with
  | Return l =>
      (exists keep, l = filter keep approx_qs)
      /\ forall o,
           In o l <->
           In o approx_qs
           /\ forall o', In o' approx_qs -> pk_of o' = pk_of o ->
                         exists i, next o' = Return (Some i)
  | Raise e => exists o, In o approx_qs /\ next o = Raise e
  end.
Proof.
  unfold filter_invalid.
  destruct (exclude_pks next pk_of approx_qs) as [pks|e] eqn:E.
  - destruct (exclude_pks_Return next pk_of approx_qs pks E) as [H1 H2].
    split; [eauto|]. intros o. rewrite filter_In, negb_true_iff.
    split; intros [Ho Hk]; split; try assumption.
    + intros o' Ho' Hp. destruct (H1 o' Ho') as [[i|] Hn]; [eauto|].
      assert (Hin : In (pk_of o) pks) by (apply H2; eauto).
      apply pk_in_In in Hin. congruence.
    + apply not_true_is_false. intros Hin. apply pk_in_In, H2 in Hin.
      destruct Hin as (o' & Ho' & Hp & Hn).
      destruct (Hk o' Ho' Hp) as [i Hi]. congruence.
  - apply exclude_pks_Raise in E. exact E.
Qed.

(** ** Bounds given as dates or as datetimes *)

Lemma as_datetime_idem d b b' :
  as_datetime (DateTime (as_datetime d b)) b' = as_datetime d b.
Proof. reflexivity. Qed.

Lemma option_map_normalised (b b' : bool) (d : option date_or_datetime) :
  option_map (fun x => as_datetime x b')
    (option_map (fun x => DateTime (as_datetime x b)) d)
  = option_map (fun x => as_datetime x b) d.
Proof. destruct d; reflexivity. Qed.

Lemma all_occurrences_normalised {Data} (o : Occurrence Data) f t :
  all_occurrences o
    (option_map (fun d => DateTime (as_datetime d false)) f)
    (option_map (fun d => DateTime (as_datetime d true)) t)
  = all_occurrences o f t.
Proof. unfold all_occurrences. now rewrite !option_map_normalised. Qed.

Lemma next_occurrence_normalised {Data} now (o : Occurrence Data) fd t :
  next_occurrence now o (Some (DateTime (as_datetime fd false)))
    (option_map DateTime (option_map (fun d => as_datetime d true) t))
  = next_occurrence now o (Some fd) t.
Proof.
  unfold next_occurrence. apply f_equal.
  rewrite <- (all_occurrences_normalised o (Some fd) t).
  simpl. now destruct t.
Qed.

(** X9.  A bound may be given as a date or as the datetime it is normalised
    to (midnight for [from_date], 23:59:59 for [to_date]): the expansion of
    an occurrence, its next occurrence and the filtered queryset are the
    same. *)
Theorem normalised_bounds {Data} (now : datetime) (self : Occurrence Data)
    (qs : list (Occurrence Data)) (from_date to_date : option date_or_datetime)
    (exact : bool) :
  let from_date' :=
    option_map (fun d => DateTime (as_datetime d false)) from_date in
  let to_date' := option_map (fun d => DateTime (as_datetime d true)) to_date in
  all_occurrences self from_date' to_date' = all_occurrences self from_date to_date
  /\ next_occurrence now self from_date' to_date'
     = next_occurrence now self from_date to_date
  /\ occurrence_for_period now qs from_date' to_date' exact
     = occurrence_for_period now qs from_date to_date exact.
Proof.
  intros from_date' to_date'.
  pose proof (@all_occurrences_normalised Data) as Ha.
  split; [apply Ha|]. split.
  - unfold next_occurrence, from_date', to_date'.
    destruct from_date as [fd|]; simpl.
    + apply f_equal. exact (Ha self (Some fd) to_date).
    + apply f_equal. exact (Ha self (Some (DateTime now)) to_date).
  - unfold occurrence_for_period, from_date', to_date'.
    rewrite option_map_normalised.
    destruct from_date as [fd|]; reflexivity.
Qed.

Lemma filter_invalid_kept {R I : Type} (next : R -> py (option I)) pk_of qs l o :
  filter_invalid next pk_of qs = Return l -> In o l ->
  In o qs /\ exists i, next o = Return (Some i).
Proof.
  unfold filter_invalid.
  destruct (exclude_pks next pk_of qs) as [pks|] eqn:E; [|discriminate].
  destruct (exclude_pks_Return next pk_of qs pks E) as [H1 H2].
  intros [= <-] Ho. apply filter_In in Ho as [Ho Hk]. split; [assumption|].
  destruct (H1 o Ho) as [[i|] Hn]; [eauto|].
  assert (Hin : In (pk_of o) pks) by (apply H2; eauto).
  apply pk_in_In in Hin. rewrite Hin in Hk. discriminate.
Qed.

Lemma occurrence_set_all_occurrences_normalised {Data} now
    (qs : list (Occurrence Data)) fd t limit :
  occurrence_set_all_occurrences now qs (Some (DateTime (as_datetime fd false)))
    (option_map DateTime (option_map (fun d => as_datetime d true) t)) limit
  = occurrence_set_all_occurrences now qs (Some fd) t limit.
Proof.
  unfold occurrence_set_all_occurrences, occurrence_for_period.
  assert (E : option_map (fun d => as_datetime d true)
                (option_map DateTime (option_map (fun d => as_datetime d true) t))
              = option_map (fun d => as_datetime d true) t)
    by now destruct t.
  rewrite E. simpl. f_equal. apply map_ext. intros o.
  rewrite <- (all_occurrences_normalised o (Some fd) t). simpl. now destruct t.
Qed.

(** X10.  Every row that [for_period] returns with [exact=True] and a
    [from_date] is a row of the queryset that has a next occurrence for the
    bounds given: an occurrence whose expansion yields an instance, an event
    whose merged stream does. *)
Theorem for_period_exact_sound {Data} (now : datetime) fd to_date :
  (forall (qs l : list (Occurrence Data)) o,
      occurrence_for_period now qs (Some fd) to_date true = Return l ->
      In o l ->
      In o qs
      /\ exists i, next_occurrence now o (Some fd) to_date = Return (Some i)
                   /\ In i (fst (all_occurrences o (Some fd) to_date)))
  /\ (forall (qs l : list (Event Data)) ev,
         event_for_period now qs (Some fd) to_date true = Return l ->
         In ev l ->
         In ev qs
         /\ exists i,
              event_next_occurrence now ev (Some fd) to_date = Return (Some i)
              /\ In i (fst (event_all_occurrences now ev (Some fd) to_date None))).
Proof.
  split.
  - intros qs l o H Ho. unfold occurrence_for_period in H.
    apply (filter_invalid_kept _ _ _ _ o) in H as [Hin [i Hi]]; [|assumption].
    rewrite next_occurrence_normalised in Hi.
    split.
    + apply filter_In in Hin as [Hin _].
      destruct to_date; [apply filter_In in Hin as [Hin _]|]; exact Hin.
    + exists i. split; [assumption|].
      unfold next_occurrence, first_item in Hi.
      destruct (all_occurrences o (Some fd) to_date) as [[|x xs] [e|]];
        try discriminate; injection Hi as <-; now left.
  - intros qs l ev H Hev. unfold event_for_period in H.
    apply (filter_invalid_kept _ _ _ _ ev) in H as [Hin [i Hi]]; [|assumption].
    unfold event_next_occurrence, event_all_occurrences in Hi |- *.
    rewrite occurrence_set_all_occurrences_normalised in Hi.
    split.
    + apply filter_In in Hin as [Hin _].
      destruct to_date; [apply filter_In in Hin as [Hin _]|]; exact Hin.
    + exists i. split; [assumption|].
      unfold first_item in Hi.
      destruct (occurrence_set_all_occurrences now (occurrence_set ev)
                  (Some fd) to_date None) as [[|x xs] [e|]];
        try discriminate; injection Hi as <-; now left.
Qed.

Lemma for_period_exact_sound_witness :
  exists i,
    next_occurrence 0
      (mkOccurrence 1 (mk_datetime 2021 1 1 9 0 0) (mk_datetime 2021 1 1 10 0 0)
         (Some WEEKLY) None tt)
      (Some (Date (ymd2ord 2021 1 10))) None
    = Return (Some i).
Proof.
  destruct (proj1 (for_period_exact_sound 0 (Date (ymd2ord 2021 1 10)) None)
              [mkOccurrence 1 (mk_datetime 2021 1 1 9 0 0)
                 (mk_datetime 2021 1 1 10 0 0) (Some WEEKLY) None tt;
               mkOccurrence 2 (mk_datetime 2021 1 1 9 0 0)
                 (mk_datetime 2021 1 1 10 0 0) None None tt]
              [mkOccurrence 1 (mk_datetime 2021 1 1 9 0 0)
                 (mk_datetime 2021 1 1 10 0 0) (Some WEEKLY) None tt]
              (mkOccurrence 1 (mk_datetime 2021 1 1 9 0 0)
                 (mk_datetime 2021 1 1 10 0 0) (Some WEEKLY) None tt))
    as [_ [i [Hi _]]].
  - vm_compute. reflexivity.
  - left. reflexivity.
  - exists i. exact Hi.
Defined.

(** ** Events *)

Lemma combine_occurrences_In {A} (key : A -> Z) generators limit x :
  In x (fst (combine_occurrences key generators limit)) ->
  exists gen, In gen generators /\ In x (fst gen).
Proof.
  intros Hx. unfold combine_occurrences in Hx.
  destruct (init_groups generators) as [G|e] eqn:E; [|destruct Hx].
  destruct (combine_loop_submultiset key (S (pending G)) limit 0 G)
    as [rest HP].
  rewrite (init_groups_items generators G E) in HP.
  assert (Hin : In x (List.concat (map fst generators))).
  { eapply Permutation_in; [exact HP|]. apply in_or_app. now left. }
  apply List.in_concat in Hin as (l & Hl & Hxl).
  apply in_map_iff in Hl as (gen & <- & Hgen). eauto.
Qed.

Lemma occurrence_for_period_subset {Data} now (qs l : list (Occurrence Data))
    from_date to_date exact :
  occurrence_for_period now qs from_date to_date exact = Return l ->
  incl l
    (filter (fun o => match to_date with
                      | Some td => starts_by (as_datetime td true) o
                      | None => true
                      end
                      && match from_date with
                         | Some fd => may_reach (as_datetime fd false) o
                         | None => true
                         end) qs).
Proof.
  unfold occurrence_for_period. intros H o Ho.
  assert (Hin : In o (match from_date with
                      | Some fd =>
                          filter (may_reach (as_datetime fd false))
                            match option_map (fun d => as_datetime d true) to_date with
                            | Some td => filter (starts_by td) qs
                            | None => qs
                            end
                      | None =>
                          match option_map (fun d => as_datetime d true) to_date with
                          | Some td => filter (starts_by td) qs
                          | None => qs
                          end
                      end)).
  { destruct from_date as [fd|].
    - destruct exact.
      + eapply filter_invalid_subset; eassumption.
      + injection H as <-. exact Ho.
    - injection H as <-. exact Ho. }
  apply filter_In. rewrite andb_true_iff.
  destruct from_date as [fd|], to_date as [td|]; simpl in Hin;
    repeat (apply filter_In in Hin as [Hin ?]); auto.
Qed.

Lemma event_for_period_subset {Data} now (qs l : list (Event Data))
    from_date to_date exact :
  event_for_period now qs from_date to_date exact = Return l ->
  incl l
    (filter (fun ev => match to_date with
                       | Some td =>
                           existsb (starts_by (as_datetime td true))
                             (occurrence_set ev)
                       | None => true
                       end
                       && match from_date with
                          | Some fd =>
                              existsb (may_reach (as_datetime fd false))
                                (occurrence_set ev)
                          | None => true
                          end) qs).
Proof.
  unfold event_for_period. intros H o Ho.
  assert (Hin : In o (match from_date with
                      | Some fd =>
                          filter (fun ev => existsb (may_reach (as_datetime fd false))
                                              (occurrence_set ev))
                            match option_map (fun d => as_datetime d true) to_date with
                            | Some td =>
                                filter (fun ev => existsb (starts_by td)
                                                    (occurrence_set ev)) qs
                            | None => qs
                            end
                      | None =>
                          match option_map (fun d => as_datetime d true) to_date with
                          | Some td =>
                              filter (fun ev => existsb (starts_by td)
                                                  (occurrence_set ev)) qs
                          | None => qs
                          end
                      end)).
  { destruct from_date as [fd|].
    - destruct exact.
      + eapply filter_invalid_subset; eassumption.
      + injection H as <-. exact Ho.
    - injection H as <-. exact Ho. }
  apply filter_In. rewrite andb_true_iff.
  destruct from_date as [fd|], to_date as [td|]; simpl in Hin;
    repeat (apply filter_In in Hin as [Hin ?]); auto.
Qed.

(** X11.  An event without occurrences yields nothing and has no next
    occurrence, and [for_period] never returns it once a bound is given. *)
Theorem event_without_occurrences {Data} (now : datetime) (ev : Event Data)
    from_date to_date :
  occurrence_set ev = [] ->
  (forall limit, event_all_occurrences now ev from_date to_date limit = ([], None))
  /\ event_next_occurrence now ev from_date to_date = Return None
  /\ (forall qs exact l,
         from_date <> None \/ to_date <> None ->
         event_for_period now qs from_date to_date exact = Return l ->
         ~ In ev l).
Proof.
  intros He.
  assert (Ha : forall f t limit,
             event_all_occurrences now ev f t limit = ([], None)).
  { intros f t limit.
    unfold event_all_occurrences, occurrence_set_all_occurrences,
      occurrence_for_period.
    rewrite He. destruct f, t; simpl; unfold combine_occurrences; simpl;
      destruct limit as [[|k]|]; reflexivity. }
  split; [apply Ha|]. split.
  - unfold event_next_occurrence. now rewrite Ha.
  - intros qs exact l Hb H Hin.
    apply event_for_period_subset in H. apply H in Hin.
    apply filter_In in Hin as [_ Hk]. rewrite He in Hk.
    destruct from_date, to_date; simpl in Hk; try discriminate.
    destruct Hb; congruence.
Qed.

Lemma event_without_occurrences_witness :
  event_next_occurrence 0 (mkEvent (Data := unit) 1 []) None None = Return None.
Proof.
  apply (proj1 (proj2 (event_without_occurrences 0 (mkEvent (Data := unit) 1 [])
                         None None eq_refl))).
Defined.

(** X12.  Every instance in an event's stream is an instance that one of the
    event's own occurrences yields for the same bounds, and that occurrence
    passes the approximate filter of [for_period]. *)
Theorem event_instances_from_occurrences {Data} (now : datetime)
    (ev : Event Data) from_date to_date limit i :
  In i (fst (event_all_occurrences now ev from_date to_date limit)) ->
  exists o,
    In o (occurrence_set ev)
    /\ In i (fst (all_occurrences o from_date to_date))
    /\ (forall td, to_date = Some td -> start o <= as_datetime td true)
    /\ (forall fd, from_date = Some fd ->
                   may_reach (as_datetime fd false) o = true).
Proof.
  unfold event_all_occurrences, occurrence_set_all_occurrences.
  destruct (occurrence_for_period now (occurrence_set ev) from_date to_date false)
    as [qs|e] eqn:E; [|intros []].
  intros Hi. apply combine_occurrences_In in Hi as (gen & Hgen & Hi).
  apply in_map_iff in Hgen as (o & <- & Ho).
  apply occurrence_for_period_subset in E. apply E in Ho.
  apply filter_In in Ho as [Ho Hk]. apply andb_true_iff in Hk as [Hk1 Hk2].
  exists o. repeat split; try assumption.
  - intros td ->. unfold starts_by in Hk1. now apply Z.leb_le.
  - intros fd ->. exact Hk2.
Qed.

Lemma event_instances_from_occurrences_witness :
  exists o,
    In o [mkOccurrence 1 (mk_datetime 2021 2 1 8 0 0) (mk_datetime 2021 2 1 9 0 0)
            None None tt]
    /\ In (mk_datetime 2021 2 1 8 0 0, mk_datetime 2021 2 1 9 0 0, tt)
         (fst (all_occurrences o None None)).
Proof.
  destruct (event_instances_from_occurrences 0
              (mkEvent 5
                 [mkOccurrence 1 (mk_datetime 2021 2 1 8 0 0)
                    (mk_datetime 2021 2 1 9 0 0) None None tt])
              None None None
              (mk_datetime 2021 2 1 8 0 0, mk_datetime 2021 2 1 9 0 0, tt))
    as (o & H1 & H2 & _).
  - vm_compute. left. reflexivity.
  - exists o. split; assumption.
Defined.

(** ** Merged streams are in start order *)

Lemma combine_occurrences_sorted {A} (key : A -> Z) generators limit :
  Forall (fun gen => snd gen = None
                     /\ StronglySorted (fun a b => key a <= key b) (fst gen))
    generators ->
  snd (combine_occurrences key generators limit) = None
  /\ StronglySorted (fun a b => key a <= key b)
       (fst (combine_occurrences key generators limit)).
Proof.
  intros H.
  assert (Eg : generators = map iter_list (map fst generators)).
  { clear -H. induction H as [|[l r] gens [Hr _] _ IH]; simpl; [reflexivity|].
    simpl in Hr. subst r. unfold iter_list at 1. now f_equal. }
  assert (Hs : Forall (StronglySorted (fun a b => key a <= key b))
                 (map fst generators)).
  { rewrite Forall_map. eapply Forall_impl; [|exact H]. simpl. tauto. }
  rewrite Eg. generalize dependent (map fst generators). clear H.
  intros inputs _ Hs.
  destruct (init_groups_tagged key inputs 0 Hs) as (G & _ & E2 & Hw & _ & _).
  assert (Hp : (pending G < S (pending G))%nat) by lia.
  destruct (combine_loop_unlimited (fun p => key (snd p)) fst (S (pending G))
              0%nat G Hw Hp) as (T1 & _ & T3 & _).
  assert (Hq : Forall (fun g : @group A => snd (snd g) = None)
                 (map (group_map snd) G)).
  { destruct Hw as (Hq & _). rewrite Forall_map.
    eapply Forall_impl; [|exact Hq]. auto. }
  assert (Hfull : combine_loop key (S (pending G)) None 0 (map (group_map snd) G)
                  = (map snd (fst (combine_loop (fun p => key (snd p))
                                     (S (pending G)) None 0 G)), None)).
  { rewrite combine_loop_map, T1. reflexivity. }
  assert (Hsorted : StronglySorted (fun a b => key a <= key b)
                      (map snd (fst (combine_loop (fun p => key (snd p))
                                       (S (pending G)) None 0 G)))).
  { apply (proj1 (sorted_map snd (fun a b : A => key a <= key b) _)).
    apply (sorted_impl (lex_le (fun p : Z * A => key (snd p)) fst));
      [|exact T3].
    intros p q. apply lex_le_key. }
  unfold combine_occurrences. rewrite E2, pending_map.
  destruct limit as [k|].
  - rewrite combine_loop_limit by exact Hq. rewrite Hfull. cbn [fst snd].
    split; [reflexivity|]. apply sorted_firstn. exact Hsorted.
  - rewrite Hfull. cbn [fst snd]. split; [reflexivity | exact Hsorted].
Qed.

Lemma all_occurrences_sorted_by_start {Data} (o : Occurrence Data) from_date to_date :
  StronglySorted (fun a b => instance_start a <= instance_start b)
    (fst (all_occurrences o from_date to_date)).
Proof.
  apply (proj2 (sorted_map instance_start (fun a b => a <= b) _)).
  apply (sorted_impl Z.lt); [intros; lia|].
  apply all_occurrences_starts_sorted.
Qed.

Lemma occurrence_set_stream_sorted {Data} now (qs : list (Occurrence Data))
    from_date to_date limit :
  (forall o, In o qs -> snd (all_occurrences o from_date to_date) = None) ->
  snd (occurrence_set_all_occurrences now qs from_date to_date limit) = None
  /\ StronglySorted (fun a b => instance_start a <= instance_start b)
       (fst (occurrence_set_all_occurrences now qs from_date to_date limit)).
Proof.
  intros H. unfold occurrence_set_all_occurrences.
  destruct (occurrence_for_period now qs from_date to_date false)
    as [l|e] eqn:E.
  - apply combine_occurrences_sorted. rewrite Forall_map, Forall_forall.
    intros o Ho. split; [|apply all_occurrences_sorted_by_start].
    apply H. apply occurrence_for_period_subset in E. apply E in Ho.
    apply filter_In in Ho. tauto.
  - unfold occurrence_for_period in E. destruct from_date; discriminate.
Qed.

(** X13.  When the expansions of the occurrences involved do not raise, the
    merged stream of a queryset of occurrences, of an event, and of a
    queryset of events ends normally and is in non-decreasing order of
    start, with or without a limit. *)
Theorem merged_streams_sorted {Data} (now : datetime) from_date to_date limit :
  (forall qs : list (Occurrence Data),
      (forall o, In o qs -> snd (all_occurrences o from_date to_date) = None) ->
      snd (occurrence_set_all_occurrences now qs from_date to_date limit) = None
      /\ StronglySorted (fun a b => instance_start a <= instance_start b)
           (fst (occurrence_set_all_occurrences now qs from_date to_date limit)))
  /\ (forall evs : list (Event Data),
         (forall ev o, In ev evs -> In o (occurrence_set ev) ->
                       snd (all_occurrences o from_date to_date) = None) ->
         (forall ev, In ev evs ->
                     snd (event_all_occurrences now ev from_date to_date limit)
                     = None
                     /\ StronglySorted
                          (fun a b => instance_start a <= instance_start b)
                          (fst (event_all_occurrences now ev from_date to_date
                                  limit)))
         /\ snd (event_set_all_occurrences now evs from_date to_date limit) = None
         /\ StronglySorted (fun a b => instance_start a <= instance_start b)
              (fst (event_set_all_occurrences now evs from_date to_date limit))).
Proof.
  split; [intros qs; apply occurrence_set_stream_sorted|].
  intros evs H. split.
  - intros ev Hev. apply occurrence_set_stream_sorted. eauto.
  - unfold event_set_all_occurrences.
    destruct (event_for_period now evs from_date to_date false) as [l|e] eqn:E.
    + apply combine_occurrences_sorted. rewrite Forall_map, Forall_forall.
      intros ev Hev. apply occurrence_set_stream_sorted.
      apply event_for_period_subset in E. apply E in Hev.
      apply filter_In in Hev as [Hev _]. eauto.
    + unfold event_for_period in E. destruct from_date; discriminate.
Qed.

Lemma merged_streams_sorted_witness :
  StronglySorted (fun a b : instance unit => instance_start a <= instance_start b)
    (fst (occurrence_set_all_occurrences 0
            [mkOccurrence 1 (mk_datetime 2021 2 1 8 0 0)
               (mk_datetime 2021 2 1 9 0 0) None None tt;
             mkOccurrence 2 (mk_datetime 2021 2 1 7 0 0)
               (mk_datetime 2021 2 1 8 0 0) (Some DAILY)
               (Some (ymd2ord 2021 2 3)) tt]
            None None (Some 3%nat))).
Proof.
  apply (proj1 (merged_streams_sorted 0 None None (Some 3%nat))).
  intros o [<- | [<- | []]]; vm_compute; reflexivity.
Defined.

(** ** Sorting by next occurrence *)

Section SortByNext.

Context {R Data : Type}.
Variable next : R -> py (option (instance Data)).

Lemma with_key_Return (self l : list R) :
  with_key (sort_key next) self = Return l ->
  l = filter (fun o => match next o with
                       | Return (Some _) => true
                       | _ => false
                       end) self.
Proof.
  revert l; induction self as [|o self IH]; intros l; simpl.
  - now intros [= <-].
  - unfold sort_key at 1. destruct (next o) as [[i|]|]; simpl;
      try discriminate;
      destruct (with_key (sort_key next) self) as [l'|]; try discriminate;
      intros [= <-]; now rewrite (IH l' eq_refl).
Qed.

Lemma with_key_Raise (self : list R) e :
  with_key (sort_key next) self = Raise e ->
  exists o, In o self /\ next o = Raise e.
Proof.
  induction self as [|o self IH]; simpl; [discriminate|].
  unfold sort_key at 1. destruct (next o) as [occ|e'] eqn:En; simpl.
  - destruct (with_key (sort_key next) self) as [l'|e'']; [discriminate|].
    intros [= <-]. destruct (IH eq_refl) as (o' & Ho & Hn). eauto.
  - intros [= <-]. eauto.
Qed.

Lemma decorate_Return (l : list R) d :
  decorate (sort_key next) l = Return d ->
  map snd d = l
  /\ Forall (fun p => next (snd p) = Return None /\ fst p = None
                      \/ exists i, next (snd p) = Return (Some i)
                                   /\ fst p = Some (instance_start i)) d.
Proof.
  revert d; induction l as [|o l IH]; intros d; simpl.
  - intros [= <-]. split; [reflexivity | constructor].
  - unfold sort_key at 1. destruct (next o) as [occ|] eqn:En; [|discriminate].
    destruct (decorate (sort_key next) l) as [d'|]; [|discriminate].
    destruct (IH d' eq_refl) as [E HF].
    intros [= <-]. simpl. split; [now rewrite E|].
    constructor; [|assumption]. simpl.
    destruct occ as [i|]; [right; eauto | left; auto].
Qed.

Lemma decorate_Raise (l : list R) e :
  decorate (sort_key next) l = Raise e ->
  exists o, In o l /\ next o = Raise e.
Proof.
  induction l as [|o l IH]; simpl; [discriminate|].
  unfold sort_key at 1. destruct (next o) as [occ|e'] eqn:En; simpl.
  - destruct (decorate (sort_key next) l) as [d'|e'']; [discriminate|].
    intros [= <-]. destruct (IH eq_refl) as (o' & Ho & Hn). eauto.
  - intros [= <-]. eauto.
Qed.

End SortByNext.

Lemma key_leb_total a b : key_leb a b = false -> key_leb b a = true.
Proof.
  destruct a as [x|], b as [y|]; simpl; try discriminate; auto.
  rewrite Z.leb_gt, Z.leb_le. lia.
Qed.

Lemma key_leb_trans a b c :
  key_leb a b = true -> key_leb b c = true -> key_leb a c = true.
Proof.
  destruct a as [x|], b as [y|], c as [z|]; simpl; try discriminate; auto.
  rewrite !Z.leb_le. lia.
Qed.

Lemma insert_by_key_perm {R} (x : option datetime * R) l :
  Permutation (insert_by_key x l) (x :: l).
Proof.
  induction l as [|y l IH]; simpl; [reflexivity|].
  destruct (key_leb (fst x) (fst y)); [reflexivity|].
  rewrite IH. apply perm_swap.
Qed.

Lemma sorted_by_key_perm {R} (l : list (option datetime * R)) :
  Permutation (sorted_by_key l) l.
Proof.
  induction l as [|x l IH]; simpl; [reflexivity|].
  rewrite insert_by_key_perm. now constructor.
Qed.

Lemma insert_by_key_sorted {R} (x : option datetime * R) l :
  StronglySorted (fun p q => key_leb (fst p) (fst q) = true) l ->
  StronglySorted (fun p q => key_leb (fst p) (fst q) = true) (insert_by_key x l).
Proof.
  induction 1 as [|y l Hs IH Hf]; simpl; [repeat constructor|].
  destruct (key_leb (fst x) (fst y)) eqn:E.
  - constructor; [constructor; assumption|].
    constructor; [assumption|].
    eapply Forall_impl; [|exact Hf]. simpl. intros q. now apply key_leb_trans.
  - constructor; [assumption|].
    apply key_leb_total in E.
    rewrite Forall_forall in *. intros q Hq.
    eapply Permutation_in in Hq; [|apply insert_by_key_perm].
    destruct Hq as [<- | Hq]; auto.
Qed.

Lemma sorted_by_key_sorted {R} (l : list (option datetime * R)) :
  StronglySorted (fun p q => key_leb (fst p) (fst q) = true) (sorted_by_key l).
Proof.
  induction l as [|x l IH]; simpl; [constructor|].
  now apply insert_by_key_sorted.
Qed.

(** Insertion keeps the elements of equal key in their order. *)
Lemma insert_by_key_stable {R} (k : datetime) (x : option datetime * R) l :
  filter (fun p => match fst p with Some t => t =? k | None => false end)
    (insert_by_key x l)
  = filter (fun p => match fst p with Some t => t =? k | None => false end)
      (x :: l).
Proof.
  induction l as [|y l IH]; [reflexivity|].
  cbn [insert_by_key]. destruct (key_leb (fst x) (fst y)) eqn:E; [reflexivity|].
  cbn [filter]. rewrite IH. destruct x as [[tx|] ox], y as [[ty|] oy];
    simpl in *; try discriminate; try reflexivity.
  apply Z.leb_gt in E.
  destruct (tx =? k) eqn:E1, (ty =? k) eqn:E2; try reflexivity.
  apply Z.eqb_eq in E1, E2. lia.
Qed.

Lemma sorted_by_key_stable {R} (k : datetime) (l : list (option datetime * R)) :
  filter (fun p => match fst p with Some t => t =? k | None => false end)
    (sorted_by_key l)
  = filter (fun p => match fst p with Some t => t =? k | None => false end) l.
Proof.
  induction l as [|x l IH]; [reflexivity|].
  cbn [sorted_by_key fold_right]. fold (sorted_by_key l).
  rewrite insert_by_key_stable. cbn [filter]. now rewrite IH.
Qed.

Lemma sorted_impl_in {X} (P Q : X -> X -> Prop) (l : list X) :
  (forall a b, In a l -> In b l -> P a b -> Q a b) ->
  StronglySorted P l -> StronglySorted Q l.
Proof.
  intros H Hs. induction Hs as [|x l Hs IH Hf]; constructor.
  - apply IH. intros a b Ha Hb. apply H; now right.
  - rewrite Forall_forall in *. intros y Hy.
    apply H; [now left | now right | auto].
Qed.

Lemma filter_map_swap {X Y} (f : X -> Y) (p : Y -> bool) (l : list X) :
  filter p (map f l) = map f (filter (fun x => p (f x)) l).
Proof.
  induction l as [|x l IH]; simpl; [reflexivity|].
  destruct (p (f x)); simpl; now rewrite IH.
Qed.

Lemma filter_filter_implied {X} (p q : X -> bool) (l : list X) :
  (forall x, p x = true -> q x = true) ->
  filter p (filter q l) = filter p l.
Proof.
  intros H. induction l as [|x l IH]; simpl; [reflexivity|].
  destruct (q x) eqn:Eq; simpl; rewrite IH; [reflexivity|].
  destruct (p x) eqn:Ep; [|reflexivity].
  apply H in Ep. congruence.
Qed.

(** X14.  [sort_by_next] returns the rows that have a next occurrence, each
    as often as it occurs in the queryset, in non-decreasing order of the
    start of that occurrence, rows with equal starts keeping their queryset
    order; it raises only an exception that some row's [next_occurrence]
    raises. *)
Theorem sort_by_next_spec {R Data : Type}
    (next : R -> py (option (instance Data))) (self : list R) :
  match sort_by_next next self with
  | Return l =>
      Permutation l
        (filter (fun o => match next o with
                          | Return (Some _) => true
                          | _ => false
                          end) self)
      /\ StronglySorted
           (fun a b => forall ia ib,
                next a = Return (Some ia) -> next b = Return (Some ib) ->
                instance_start ia <= instance_start ib) l
      /\ (forall t,
             filter (fun o => match next o with
                              | Return (Some i) => instance_start i =? t
                              | _ => false
                              end) l
             = filter (fun o => match next o with
                                | Return (Some i) => instance_start i =? t
                                | _ => false
                                end) self)
  | Raise e => exists o, In o self /\ next o = Raise e
  end.
Proof.
  unfold sort_by_next.
  destruct (with_key (sort_key next) self) as [kept|e] eqn:Ek;
    [|now apply with_key_Raise].
  apply with_key_Return in Ek.
  destruct (decorate (sort_key next) kept) as [d|e] eqn:Ed.
  2:{ apply decorate_Raise in Ed as (o & Ho & Hn). exists o. split; [|exact Hn].
      rewrite Ek in Ho. apply filter_In in Ho. tauto. }
  apply decorate_Return in Ed as [Em Hinv].
  pose proof (sorted_by_key_perm d) as HP.
  assert (Hinv' : forall p, In p (sorted_by_key d) ->
            next (snd p) = Return None /\ fst p = None
            \/ exists i, next (snd p) = Return (Some i)
                         /\ fst p = Some (instance_start i)).
  { rewrite Forall_forall in Hinv. intros p Hp. apply Hinv.
    eapply Permutation_in; [exact HP | exact Hp]. }
  rewrite Forall_forall in Hinv.
  split; [|split].
  - rewrite <- Ek, <- Em. apply Permutation_map. exact HP.
  - apply (proj1 (sorted_map snd _ (sorted_by_key d))).
    apply (sorted_impl_in (fun p q => key_leb (fst p) (fst q) = true));
      [|apply sorted_by_key_sorted].
    intros p q Hp Hq Hle ia ib Ha Hb.
    destruct (Hinv' p Hp) as [[Hn _] | (i & Hn & Hk)]; [congruence|].
    destruct (Hinv' q Hq) as [[Hn' _] | (j & Hn' & Hk')]; [congruence|].
    rewrite Hk, Hk' in Hle. simpl in Hle. apply Z.leb_le in Hle.
    congruence.
  - intros t.
    set (Po := fun o : R => match next o with
                            | Return (Some i) => instance_start i =? t
                            | _ => false
                            end).
    assert (Hext : forall l', (forall p, In p l' ->
                next (snd p) = Return None /\ fst p = None
                \/ exists i, next (snd p) = Return (Some i)
                             /\ fst p = Some (instance_start i)) ->
              filter (fun p => Po (snd p)) l'
              = filter (fun p => match fst p with
                                 | Some t' => t' =? t
                                 | None => false
                                 end) l').
    { intros l' Hl'. apply filter_ext_in. intros p Hp. unfold Po.
      destruct (Hl' p Hp) as [[Hn Hk] | (i & Hn & Hk)];
        destruct p as [k o]; simpl in *; rewrite Hn; subst k; reflexivity. }
    rewrite (filter_map_swap snd Po (sorted_by_key d)).
    rewrite (Hext _ Hinv'), sorted_by_key_stable, <- (Hext _ Hinv).
    rewrite <- (filter_map_swap snd Po d), Em, Ek.
    apply filter_filter_implied. intros o. unfold Po.
    destruct (next o) as [[i|]|]; auto.
Qed.

(** ** Where the approximate phase is safe *)

Lemma date_of_mono a b : a <= b -> date_of a <= date_of b.
Proof.
  intros H. unfold date_of. apply Z.add_le_mono_r, Z.div_le_mono; [reflexivity | exact H].
Qed.

(** X15.  An occurrence (whose end is not before its start) that yields an
    instance for a window passes the [to_date] filter of [for_period] when
    it does not repeat or its start has no microseconds, and passes the
    [from_date] filter when it does not repeat, or has no [repeat_until], or
    the instance ends on the day it starts. *)
Theorem approximate_filter_keeps {Data} (o : Occurrence Data)
    from_date to_date i :
  start o <= end_ o ->
  In i (fst (all_occurrences o from_date to_date)) ->
  (forall td, to_date = Some td ->
              repeat o = None \/ start o mod US_PER_SECOND = 0 ->
              starts_by (as_datetime td true) o = true)
  /\ (forall fd, from_date = Some fd ->
                 repeat o = None \/ repeat_until o = None
                 \/ date_of (instance_end i) = date_of (instance_start i) ->
                 may_reach (as_datetime fd false) o = true).
Proof.
  intros Hv Hi. destruct (repeat o) as [f|] eqn:Hf.
  - destruct (all_occurrences_repeating_starts o f from_date to_date i Hf Hi)
      as (Hin & He & _).
    destruct (all_occurrences_repeating_bounds o f from_date to_date i Hf Hi)
      as (Hlo & Hup).
    rewrite effective_to_date_min in Hup.
    pose proof (increasing_from_Forall _ _
                  (rrule_increasing f (start o) REPEAT_MAX)) as Hge.
    rewrite Forall_forall in Hge. specialize (Hge _ Hin).
    split.
    + intros td -> [Hn | Hm]; [discriminate|].
      unfold starts_by. apply Z.leb_le.
      unfold drop_microsecond in Hge. rewrite Hm in Hge.
      simpl in Hup. destruct (repeat_until o) as [u|].
      * specialize (Hup _ eq_refl). lia.
      * specialize (Hup _ eq_refl). lia.
    + intros fd -> Hc. specialize (Hlo fd eq_refl).
      unfold may_reach. rewrite Hf. apply orb_true_iff. right. simpl.
      destruct (repeat_until o) as [u|] eqn:Hu; [|reflexivity].
      destruct Hc as [Hc | [Hc | Hc]]; try discriminate.
      apply Z.leb_le.
      assert (H1 : instance_start i <= as_datetime (Date u) true).
      { destruct (option_map (fun d => as_datetime d true) to_date).
        - specialize (Hup _ eq_refl). lia.
        - apply Hup. reflexivity. }
      apply date_of_mono in H1.
      destruct (as_datetime_same_day_aux u) as [_ Hd]. rewrite Hd in H1.
      assert (H2 : as_datetime fd false <= instance_end i) by lia.
      apply date_of_mono in H2. lia.
  - revert Hi. unfold all_occurrences. rewrite Hf.
    match goal with |- context [if ?c then _ else _] =>
      destruct c eqn:E end; simpl; [|tauto].
    apply andb_true_iff in E as [E1 E2]. intros _. split.
    + intros td -> _. simpl in E2. exact E2.
    + intros fd -> _. simpl in E1. apply Z.leb_le in E1.
      unfold may_reach. apply orb_true_iff. left. apply Z.leb_le. lia.
Qed.

Lemma approximate_filter_keeps_witness :
  may_reach (as_datetime (Date (ymd2ord 2021 1 10)) false)
    (mkOccurrence 1 (mk_datetime 2021 1 1 9 0 0) (mk_datetime 2021 1 1 10 0 0)
       (Some WEEKLY) (Some (ymd2ord 2021 1 22)) tt)
  = true.
Proof.
  refine (proj2 (approximate_filter_keeps
            (mkOccurrence 1 (mk_datetime 2021 1 1 9 0 0)
               (mk_datetime 2021 1 1 10 0 0) (Some WEEKLY)
               (Some (ymd2ord 2021 1 22)) tt)
            (Some (Date (ymd2ord 2021 1 10))) (Some (Date (ymd2ord 2021 1 31)))
            (mk_datetime 2021 1 15 9 0 0, mk_datetime 2021 1 15 10 0 0, tt)
            _ _) (Date (ymd2ord 2021 1 10)) eq_refl _).
  - vm_compute. discriminate.
  - vm_compute. left. reflexivity.
  - right. right. vm_compute. reflexivity.
Defined.

(** ** The next occurrence of an event *)

Lemma filter_filter_andb {X} (p q : X -> bool) (l : list X) :
  filter p (filter q l) = filter (fun x => q x && p x) l.
Proof.
  induction l as [|x l IH]; simpl; [reflexivity|].
  destruct (q x); simpl; [destruct (p x)|]; now rewrite IH.
Qed.

Lemma occurrence_for_period_approx {Data} now (qs : list (Occurrence Data))
    from_date to_date :
  occurrence_for_period now qs from_date to_date false
  = Return
      (filter (fun o => match to_date with
                        | Some td => starts_by (as_datetime td true) o
                        | None => true
                        end
                        && match from_date with
                           | Some fd => may_reach (as_datetime fd false) o
                           | None => true
                           end) qs).
Proof.
  unfold occurrence_for_period.
  destruct from_date as [fd|], to_date as [td|]; simpl; apply f_equal.
  - apply filter_filter_andb.
  - apply filter_ext. reflexivity.
  - apply filter_ext. intros o. now rewrite andb_true_r.
  - induction qs as [|o qs IH]; simpl; [reflexivity | now rewrite <- IH].
Qed.

(** X16.  When the expansions of its occurrences do not raise, the next
    occurrence of an event is the instance with the earliest start among all
    the instances that its occurrences passing the approximate filter yield
    from [from_date] (the current moment when absent); it is none exactly
    when they yield none. *)
Theorem event_next_occurrence_earliest {Data} (now : datetime)
    (ev : Event Data) from_date to_date :
  let fd := match from_date with Some d => d | None => DateTime now end in
  let kept o :=
    In o (occurrence_set ev)
    /\ (forall td, to_date = Some td -> start o <= as_datetime td true)
    /\ may_reach (as_datetime fd false) o = true in
  (forall o, In o (occurrence_set ev) ->
             snd (all_occurrences o (Some fd) to_date) = None) ->
  match event_next_occurrence now ev from_date to_date with
  | Return (Some i) =>
      (exists o, kept o /\ In i (fst (all_occurrences o (Some fd) to_date)))
      /\ (forall o j, kept o -> In j (fst (all_occurrences o (Some fd) to_date)) ->
                      instance_start i <= instance_start j)
  | Return None =>
      forall o j, kept o -> ~ In j (fst (all_occurrences o (Some fd) to_date))
  | Raise _ => False
  end.
Proof.
  intros fd kept H.
  unfold event_next_occurrence, event_all_occurrences. fold fd.
  destruct (occurrence_set_stream_sorted now (occurrence_set ev) (Some fd)
              to_date None H) as [Hend Hsorted].
  revert Hend Hsorted. unfold occurrence_set_all_occurrences.
  rewrite occurrence_for_period_approx.
  set (approx := filter _ (occurrence_set ev)).
  assert (Hk : forall o, In o approx <-> kept o).
  { intros o. unfold approx, kept. rewrite filter_In, andb_true_iff.
    unfold starts_by. destruct to_date as [td|].
    - rewrite Z.leb_le. split.
      + intros (Ho & H1 & H2). repeat split; auto. now intros ? [= <-].
      + intros (Ho & H1 & H2). repeat split; auto.
    - split.
      + intros (Ho & H1 & H2). repeat split; auto. discriminate.
      + intros (Ho & H1 & H2). repeat split; auto. }
  destruct (combine_occurrences_all instance_start
              (map (fun obj => all_occurrences obj (Some fd) to_date) approx))
    as [_ HP].
  { rewrite Forall_map, Forall_forall. intros o Ho. apply H.
    apply Hk in Ho. apply Ho. }
  assert (Hmem : forall j,
             In j (fst (combine_occurrences instance_start
                          (map (fun obj => all_occurrences obj (Some fd) to_date)
                             approx) None))
             <-> exists o, kept o
                           /\ In j (fst (all_occurrences o (Some fd) to_date))).
  { intros j. split.
    - intros Hj. eapply Permutation_in in Hj; [|exact HP].
      apply List.in_concat in Hj as (l & Hl & Hj).
      rewrite map_map in Hl. apply in_map_iff in Hl as (o & <- & Ho).
      exists o. split; [now apply Hk | assumption].
    - intros (o & Ho & Hj). eapply Permutation_in; [symmetry; exact HP|].
      apply List.in_concat. eexists. split; [|exact Hj].
      rewrite map_map. apply in_map_iff. exists o. split; [reflexivity|].
      now apply Hk. }
  destruct (combine_occurrences instance_start
              (map (fun obj => all_occurrences obj (Some fd) to_date) approx)
              None) as [[|x xs] r]; cbn [fst snd first_item] in *;
    intros -> Hsorted.
  - intros o j Ho Hj. apply (proj2 (Hmem j)). eauto.
  - split; [apply Hmem; now left|].
    intros o j Ho Hj.
    destruct (proj2 (Hmem j) (ex_intro _ o (conj Ho Hj))) as [<- | Hin];
      [lia|].
    inversion Hsorted as [|? ? _ Hf]; subst.
    rewrite Forall_forall in Hf. now apply Hf.
Qed.

Lemma event_next_occurrence_earliest_witness :
  instance_start (mk_datetime 2021 2 1 7 0 0, mk_datetime 2021 2 1 8 0 0, tt)
  <= instance_start (mk_datetime 2021 2 1 8 0 0, mk_datetime 2021 2 1 9 0 0, tt).
Proof.
  pose proof (event_next_occurrence_earliest 0
                (mkEvent 5
                   [mkOccurrence 1 (mk_datetime 2021 2 1 8 0 0)
                      (mk_datetime 2021 2 1 9 0 0) None None tt;
                    mkOccurrence 2 (mk_datetime 2021 2 1 7 0 0)
                      (mk_datetime 2021 2 1 8 0 0) None None tt])
                (Some (Date (ymd2ord 2021 1 1))) None) as H.
  cbv zeta in H.
  assert (Hq : forall o : Occurrence unit,
             In o (occurrence_set
                     (mkEvent 5
                        [mkOccurrence 1 (mk_datetime 2021 2 1 8 0 0)
                           (mk_datetime 2021 2 1 9 0 0) None None tt;
                         mkOccurrence 2 (mk_datetime 2021 2 1 7 0 0)
                           (mk_datetime 2021 2 1 8 0 0) None None tt])) ->
             snd (all_occurrences o (Some (Date (ymd2ord 2021 1 1))) None) = None).
  { intros o [<- | [<- | []]]; vm_compute; reflexivity. }
  specialize (H Hq). clear Hq.
  assert (E : event_next_occurrence 0
                (mkEvent 5
                   [mkOccurrence 1 (mk_datetime 2021 2 1 8 0 0)
                      (mk_datetime 2021 2 1 9 0 0) None None tt;
                    mkOccurrence 2 (mk_datetime 2021 2 1 7 0 0)
                      (mk_datetime 2021 2 1 8 0 0) None None tt])
                (Some (Date (ymd2ord 2021 1 1))) None
              = Return (Some (mk_datetime 2021 2 1 7 0 0,
                              mk_datetime 2021 2 1 8 0 0, tt)))
    by (vm_compute; reflexivity).
  rewrite E in H. destruct H as [_ H].
  apply (H (mkOccurrence 1 (mk_datetime 2021 2 1 8 0 0)
              (mk_datetime 2021 2 1 9 0 0) None None tt)).
  - split; [left; reflexivity|]. split; [discriminate|]. vm_compute. reflexivity.
  - vm_compute. left. reflexivity.
Defined.
